(** * COREP own-funds assistant: the validation of a populated template

    A shallow embedding of [validate_response], the validator that
    [COREPEngine] (corep_engine.py) and [COREPAssistant] (main.py) both
    carry, together with the Python built-ins it calls on the decoded JSON
    document it is handed: [dict.get], [in], subscription, [dict.items],
    truth values, [str()], [int()], [re.match] with the pattern
    [^-?\d+$], and the [{:,}] format.

    Modelling decisions.
    - A decoded JSON document is a [pyval].  A Python [str] is a Rocq
      [string] whose characters stand for the code points U+0000..U+00FF;
      code points above U+00FF (among them the other decimal digits and
      white space of Unicode, which [\d] and [int()] accept as well) are
      outside the model.
    - A Python [dict] is an association list in insertion order; the keys of
      a dict are unique, and a lookup takes the first binding.
    - A Python [float] is the record of what the validator can observe of
      it: its truth value, its [str()] text and the outcome of [int()].
    - Python integers are unbounded ([Z]).  The interpreter limits a
      conversion between [int] and [str] to [max_str_digits] digits, 4300
      unless it is configured otherwise, and raises [ValueError] beyond:
      [int()] of a string with more digit characters and the [{:,}] format
      of a total with more digits are modelled with this limit.  An [int]
      held by a document has at most that many digits, since [json.loads]
      reads it with [int()]: [str()] of a value and the format of a single
      amount in the two displays are modelled on such integers; where a
      property depends on it, [ints_fit] or [sized_values] says so.
    - An exception is a value of [exn]; only a [ValueError] carries its
      message, because that is the only message the validator reads.
    - [errors] and [warnings] are local to a call, so an exception that
      leaves the validator leaves nothing else behind.

    Around the validator, the file also embeds [parse_llm_response] and
    [process_query] (corep_engine.py), the table of [display_template] and
    the history query of [process_report] (app.py), and the table body of
    [display_corep_template] and the report that [save_report] builds
    (main.py).
    What these call outside the repository ([json.loads], the remote model,
    the clock) is a parameter; what they print or hand to the user
    interface is a returned list; texts with characters above U+00FF are
    left out. *)

From Stdlib Require Import ZArith List String Ascii Bool Lia DecimalString.
From Stdlib Require Finite.
Import ListNotations.

Local Open Scope list_scope.
Local Open Scope string_scope.
Local Set Warnings "-register-all".

(** ** Exceptions and results *)

Inductive exn : Type :=
| AttributeError
| TypeError
| KeyError
| OverflowError
| ValueError (msg : string).


Inductive res (A : Type) : Type :=
| Ok (a : A)
| Raise (e : exn).

Arguments Ok {A} a.
Arguments Raise {A} e.

Definition bind {A B : Type} (m : res A) (k : A -> res B) : res B :=
  match m with
  | Ok a => k a
  | Raise e => Raise e
  end.

Notation "x <- m ;; k" := (bind m (fun x => k))
  (at level 61, m at next level, right associativity).

(** ** Python values *)

Inductive float_trunc : Type :=
| TruncInt (z : Z)
| TruncNaN
| TruncInf.

Record pyfloat : Type := mkfloat {
  float_bool : bool;
  float_str : string;
  float_int : float_trunc
}.

Inductive pyval : Type :=
| PNone
| PBool (b : bool)
| PInt (z : Z)
| PFloat (f : pyfloat)
| PStr (s : string)
| PList (l : list pyval)
| PDict (d : list (string * pyval)).

Definition pydict : Type := list (string * pyval).

(** ** Characters *)

Definition chr (n : nat) : ascii := ascii_of_nat n.
Definition ord (c : ascii) : nat := nat_of_ascii c.

Definition newline : ascii := chr 10.
Definition dquote : ascii := chr 34.
Definition squote : ascii := chr 39.
Definition backslash : ascii := chr 92.

Definition is_digit (c : ascii) : bool :=
  (48 <=? ord c)%nat && (ord c <=? 57)%nat.

Definition digit_value (c : ascii) : Z := Z.of_nat (ord c - 48).

(** The characters [int()] strips from both ends of a [str]: the ASCII
    white space and, of the other characters up to U+00FF, NEL and the
    no-break space. *)
Definition is_space (c : ascii) : bool :=
  let n := ord c in
  ((9 <=? n)%nat && (n <=? 13)%nat) || (n =? 32)%nat || (n =? 133)%nat
  || (n =? 160)%nat.

(** [str.isprintable] on U+0000..U+00FF. *)
Definition is_printable (c : ascii) : bool :=
  let n := ord c in
  ((32 <=? n)%nat && (n <=? 126)%nat)
  || ((161 <=? n)%nat && negb (n =? 173)%nat).

(** ** Integers to text *)

Definition decimal (z : Z) : string := NilEmpty.string_of_int (Z.to_int z).

Fixpoint group3 (rev_digits : list ascii) (k : nat) : list ascii :=
  match rev_digits with
  | [] => []
  | c :: r =>
      if (k =? 3)%nat then "," %char :: c :: group3 r 1
      else c :: group3 r (S k)
  end.

(** The text of [format(z, ",")], the [{z:,}] of an f-string: what the
    interpreter writes for an integer of at most [max_str_digits] digits.
    [py_format_grouped] below is the format with its refusal beyond. *)
Definition format_grouped (z : Z) : string :=
  let digits := list_ascii_of_string (decimal (Z.abs z)) in
  let body := string_of_list_ascii (rev (group3 (rev digits) 0)) in
  if (z <? 0)%Z then "-" ++ body else body.

(** ** [repr] and [str] *)

Definition hex_digit (n : nat) : ascii :=
  if (n <? 10)%nat then chr (48 + n) else chr (87 + n).

Definition repr_char (quote c : ascii) : list ascii :=
  if Ascii.eqb c quote || Ascii.eqb c backslash then [backslash; c]
  else if (ord c =? 9)%nat then [backslash; "t"%char]
  else if (ord c =? 10)%nat then [backslash; "n"%char]
  else if (ord c =? 13)%nat then [backslash; "r"%char]
  else if is_printable c then [c]
  else [backslash; "x"%char; hex_digit (ord c / 16); hex_digit (ord c mod 16)].

Definition has_char (c : ascii) (l : list ascii) : bool :=
  existsb (Ascii.eqb c) l.

Definition str_repr (s : string) : string :=
  let l := list_ascii_of_string s in
  let quote := if has_char squote l && negb (has_char dquote l)
               then dquote else squote in
  string_of_list_ascii
    (quote :: (flat_map (repr_char quote) l ++ [quote])%list).

Fixpoint join (sep : string) (parts : list string) : string :=
  match parts with
  | [] => ""
  | [p] => p
  | p :: rest => p ++ sep ++ join sep rest
  end.

Fixpoint py_repr (v : pyval) : string :=
  match v with
  | PNone => "None"
  | PBool true => "True"
  | PBool false => "False"
  | PInt z => decimal z
  | PFloat f => float_str f
  | PStr s => str_repr s
  | PList l => "[" ++ join ", " (map py_repr l) ++ "]"
  | PDict d =>
      "{" ++ join ", "
               (map (fun kv => match kv with
                               | (k, x) => str_repr k ++ ": " ++ py_repr x
                               end) d) ++ "}"
  end.

(** [str(v)], which is also what an f-string substitutes for [{v}], for a
    value whose integers have at most [max_str_digits] digits. *)
Definition py_str (v : pyval) : string :=
  match v with
  | PStr s => s
  | _ => py_repr v
  end.

(** ** Truth values *)

Definition py_truthy (v : pyval) : bool :=
  match v with
  | PNone => false
  | PBool b => b
  | PInt z => negb (z =? 0)%Z
  | PFloat f => float_bool f
  | PStr s => negb (s =? "")
  | PList l => match l with [] => false | _ => true end
  | PDict d => match d with [] => false | _ => true end
  end.

(** ** [int()] *)

Fixpoint skip_spaces (l : list ascii) : list ascii :=
  match l with
  | c :: r => if is_space c then skip_spaces r else l
  | [] => []
  end.

(** The digits of a literal, single underscores allowed between them.
    [prev_us] says that the previous character was an underscore. *)
Fixpoint scan_digits (l : list ascii) (acc : Z) (prev_us : bool)
  : option (Z * list ascii) :=
  match l with
  | c :: r =>
      if is_digit c then scan_digits r (10 * acc + digit_value c)%Z false
      else if Ascii.eqb c "_"%char then
        if prev_us then None else scan_digits r acc true
      else if prev_us then None else Some (acc, l)
  | [] => if prev_us then None else Some (acc, [])
  end.

(** The limit on the digits of a conversion between [int] and [str]:
    [sys.get_int_max_str_digits()], as the interpreter starts with it. *)
Definition max_str_digits : nat := 4300.

(** The digit characters of the run of digits and underscores that a
    literal starts with: what [int()] counts against the limit. *)
Fixpoint count_digits (l : list ascii) : nat :=
  match l with
  | c :: r =>
      if is_digit c then S (count_digits r)
      else if Ascii.eqb c "_"%char then count_digits r
      else 0
  | [] => 0
  end.

(** What [int()] makes of a [str]: an integer, or one of its two
    [ValueError]s.  The digits are counted once they are scanned and before
    the rest of the string is looked at. *)
Inductive int_reading : Type :=
| ReadInt (z : Z)
| TooManyDigits (n : nat)
| InvalidLiteral.

Definition read_int (s : string) : int_reading :=
  let l := skip_spaces (list_ascii_of_string s) in
  let signed :=
    match l with
    | c :: r =>
        if Ascii.eqb c "+"%char then (false, r)
        else if Ascii.eqb c "-"%char then (true, r)
        else (false, l)
    | [] => (false, l)
    end in
  match snd signed with
  | c :: _ =>
      if is_digit c then
        match scan_digits (snd signed) 0 false with
        | Some (n, rest) =>
            if (max_str_digits <? count_digits (snd signed))%nat then
              TooManyDigits (count_digits (snd signed))
            else
              match skip_spaces rest with
              | [] => ReadInt (if fst signed then (- n)%Z else n)
              | _ :: _ => InvalidLiteral
              end
        | None => InvalidLiteral
        end
      else InvalidLiteral
  | [] => InvalidLiteral
  end.

Definition py_int_of_str (s : string) : option Z :=
  match read_int s with
  | ReadInt z => Some z
  | TooManyDigits _ | InvalidLiteral => None
  end.

(** The text of the [ValueError] that [int(s)] raises for a literal it
    cannot read; the interpreter cuts the [repr] of the string at 200
    characters. *)
Definition invalid_literal (s : string) : string :=
  "invalid literal for int() with base 10: " ++ substring 0 200 (str_repr s).

(** The texts of the [ValueError]s of the limit: reading a string, and
    writing an integer. *)
Definition too_many_digits_text (n : nat) : string :=
  "Exceeds the limit (" ++ decimal (Z.of_nat max_str_digits)
    ++ " digits) for integer string conversion: value has "
    ++ decimal (Z.of_nat n)
    ++ " digits; use sys.set_int_max_str_digits() to increase the limit".

Definition exceeds_limit_text : string :=
  "Exceeds the limit (" ++ decimal (Z.of_nat max_str_digits)
    ++ " digits) for integer string conversion; "
    ++ "use sys.set_int_max_str_digits() to increase the limit".

(** The message of the [ValueError] of [int(s)]. *)
Definition int_error_text (s : string) : string :=
  match read_int s with
  | TooManyDigits n => too_many_digits_text n
  | ReadInt _ | InvalidLiteral => invalid_literal s
  end.

Definition py_int (v : pyval) : res Z :=
  match v with
  | PStr s =>
      match read_int s with
      | ReadInt z => Ok z
      | TooManyDigits n => Raise (ValueError (too_many_digits_text n))
      | InvalidLiteral => Raise (ValueError (invalid_literal s))
      end
  | PInt z => Ok z
  | PBool b => Ok (if b then 1 else 0)%Z
  | PFloat f =>
      match float_int f with
      | TruncInt z => Ok z
      | TruncNaN => Raise (ValueError "cannot convert float NaN to integer")
      | TruncInf => Raise OverflowError
      end
  | PNone | PList _ | PDict _ => Raise TypeError
  end.

(** An integer of at most [max_str_digits] digits. *)
Definition fits_str_digits (z : Z) : bool :=
  (Z.abs z <? 10 ^ Z.of_nat max_str_digits)%Z.

(** [f"{z:,}"] as the interpreter runs it: it writes the digits of [z],
    and refuses when there are more than the limit allows. *)
Definition py_format_grouped (z : Z) : res string :=
  if fits_str_digits z then Ok (format_grouped z)
  else Raise (ValueError exceeds_limit_text).

(** Every integer inside a value has at most [max_str_digits] digits. *)
Fixpoint ints_fit (v : pyval) : bool :=
  match v with
  | PInt z => fits_str_digits z
  | PList l => forallb ints_fit l
  | PDict d => forallb (fun kv => match kv with (_, x) => ints_fit x end) d
  | PNone | PBool _ | PFloat _ | PStr _ => true
  end.

(** ** [re.match(r'^-?\d+$', s)] *)

Fixpoint skip_digits (l : list ascii) : list ascii :=
  match l with
  | c :: r => if is_digit c then skip_digits r else l
  | [] => []
  end.

(** [$] matches at the end of the string and also just before a newline
    that is the last character of the string. *)
Definition at_dollar (l : list ascii) : bool :=
  match l with
  | [] => true
  | [c] => Ascii.eqb c newline
  | _ => false
  end.

Definition re_match_int (s : string) : bool :=
  let l := list_ascii_of_string s in
  let l := match l with
           | c :: r => if Ascii.eqb c "-"%char then r else l
           | [] => l
           end in
  match l with
  | c :: r => is_digit c && at_dollar (skip_digits r)
  | [] => false
  end.

(** The decimal digits among the characters of a string. *)
Definition digit_chars (s : string) : nat :=
  List.length (filter is_digit (list_ascii_of_string s)).

(** ** Containers *)

Fixpoint lookup (k : string) (d : pydict) : option pyval :=
  match d with
  | [] => None
  | (k', v) :: rest => if k' =? k then Some v else lookup k rest
  end.

Fixpoint is_substring (p s : string) : bool :=
  prefix p s
  || match s with
     | EmptyString => false
     | String _ r => is_substring p r
     end.

(** [obj.get(key, default)] *)
Definition py_get (obj : pyval) (key : string) (default : pyval) : res pyval :=
  match obj with
  | PDict d =>
      Ok (match lookup key d with
          | Some v => v
          | None => default
          end)
  | _ => Raise AttributeError
  end.

(** [key in container], for a [str] key *)
Definition py_contains (key : string) (container : pyval) : res bool :=
  match container with
  | PDict d =>
      Ok (match lookup key d with Some _ => true | None => false end)
  | PList l =>
      Ok (existsb (fun x => match x with
                            | PStr s => s =? key
                            | _ => false
                            end) l)
  | PStr s => Ok (is_substring key s)
  | _ => Raise TypeError
  end.

(** [obj[key]], for a [str] key *)
Definition py_getitem (obj : pyval) (key : string) : res pyval :=
  match obj with
  | PDict d =>
      match lookup key d with
      | Some v => Ok v
      | None => Raise KeyError
      end
  | _ => Raise TypeError
  end.

(** [obj.items()] *)
Definition py_items (obj : pyval) : res pydict :=
  match obj with
  | PDict d => Ok d
  | _ => Raise AttributeError
  end.

(** ** The verdict and the loops *)

Record verdict : Type := mkverdict {
  errors : list string;
  warnings : list string;
  is_valid : bool
}.

(** A [for] loop over a list, threading the variables its body assigns;
    an exception raised by a turn ends the loop. *)
Fixpoint for_each {A S : Type} (xs : list A) (body : A -> S -> res S) (s : S)
  : res S :=
  match xs with
  | [] => Ok s
  | x :: rest => s' <- body x s ;; for_each rest body s'
  end.

(** [l.append(x)] *)
Definition push {A : Type} (l : list A) (x : A) : list A := (l ++ [x])%list.

(** The two lists a validator fills: [errors] and [warnings]. *)
Definition findings : Type := (list string * list string)%type.

(** ** corep_engine.py: [COREPEngine.validate_response] *)

Module Engine.

Definition required_fields : list string := ["010"; "020"; "030"; "100"].

(** One turn of the loop over [required_fields]. *)
Definition check_required_field (llm_data : pyval) (field_code : string)
    (st : findings) : res findings :=
  data <- py_get llm_data "data" (PDict []) ;;
  present <- py_contains field_code data ;;
  if negb present then
    Ok (push (fst st) ("Missing required field: " ++ field_code), snd st)
  else
    d <- py_getitem llm_data "data" ;;
    field <- py_getitem d field_code ;;
    value <- py_get field "value" PNone ;;
    if negb (py_truthy value) then
      Ok (fst st, push (snd st) ("Empty value for field: " ++ field_code))
    else Ok st.

(** One turn of the loop over the items of the data mapping. *)
Definition check_data_type (item : string * pyval) (warnings : list string)
  : res (list string) :=
  value <- py_get (snd item) "value" (PStr "") ;;
  if py_truthy value && negb (re_match_int (py_str value)) then
    Ok (push warnings ("Non-numeric value in field " ++ fst item ++ ": "
                         ++ py_str value))
  else Ok warnings.

(** One turn of a summing loop: [total += int(val_str)]. *)
Definition add_amount (data : pyval) (code : string) (total : Z) : res Z :=
  present <- py_contains code data ;;
  if present then
    field <- py_getitem data code ;;
    val_str <- py_get field "value" (PStr "0") ;;
    if py_truthy val_str then
      n <- py_int val_str ;; Ok (total + n)%Z
    else Ok total
  else Ok total.

(** The body of the [try] block.  [errors] is the list the block appends
    to; the result is that list as the block leaves it, and how the block
    ends.  The two numbers of the mismatch message are formatted, the first
    before the second, before the message is appended. *)
Definition cet1_checks (llm_data : pyval) (errors : list string)
  : list string * res unit :=
  match (data <- py_get llm_data "data" (PDict []) ;;
         components <-
           for_each ["010"; "020"; "030"; "040"] (add_amount data) 0%Z ;;
         deductions <- for_each ["070"] (add_amount data) 0%Z ;;
         total_field <- py_get data "100" (PDict []) ;;
         reported_cet1_str <- py_get total_field "value" (PStr "0") ;;
         reported_cet1 <- (if py_truthy reported_cet1_str
                           then py_int reported_cet1_str else Ok 0%Z) ;;
         Ok ((components - deductions)%Z, reported_cet1)) with
  | Raise e => (errors, Raise e)
  | Ok (calculated_cet1, reported_cet1) =>
      let mismatch :=
        if negb (calculated_cet1 =? reported_cet1)%Z then
          match (calculated <- py_format_grouped calculated_cet1 ;;
                 reported <- py_format_grouped reported_cet1 ;;
                 Ok ("CET1 calculation mismatch: Calculated " ++ calculated
                       ++ " vs Reported " ++ reported)) with
          | Ok message => (push errors message, Ok tt)
          | Raise e => (errors, Raise e)
          end
        else (errors, Ok tt) in
      match snd mismatch with
      | Raise e => mismatch
      | Ok _ =>
          if (reported_cet1 <? 0)%Z then
            match py_format_grouped reported_cet1 with
            | Ok reported =>
                (push (fst mismatch) ("CET1 is negative: " ++ reported),
                 Ok tt)
            | Raise e => (fst mismatch, Raise e)
            end
          else mismatch
      end
  end.

Definition validate_response (llm_data : pyval) : res verdict :=
  st <- for_each required_fields (check_required_field llm_data) ([], []) ;;
  data <- py_get llm_data "data" (PDict []) ;;
  items <- py_items data ;;
  warnings <- for_each items check_data_type (snd st) ;;
  let block := cet1_checks llm_data (fst st) in
  st' <- match snd block with
         | Ok _ => Ok (fst block, warnings)
         | Raise (ValueError e) =>
             Ok (fst block, push warnings ("Calculation error: " ++ e))
         | Raise e => Raise e
         end ;;
  Ok {| errors := fst st';
        warnings := snd st';
        is_valid := (List.length (fst st') =? 0)%nat |}.

End Engine.

(** ** main.py: [COREPAssistant.validate_response] *)

Module Assistant.

Definition required_fields : list string := ["010"; "020"; "030"; "100"].

Definition check_required_field (llm_data : pyval) (field_code : string)
    (st : findings) : res findings :=
  data <- py_get llm_data "data" (PDict []) ;;
  present <- py_contains field_code data ;;
  if negb present then
    Ok (push (fst st) ("Missing required field: " ++ field_code), snd st)
  else
    d <- py_getitem llm_data "data" ;;
    field <- py_getitem d field_code ;;
    value <- py_get field "value" PNone ;;
    if negb (py_truthy value) then
      Ok (fst st, push (snd st) ("Empty value for field: " ++ field_code))
    else Ok st.

Definition check_data_type (item : string * pyval) (warnings : list string)
  : res (list string) :=
  value <- py_get (snd item) "value" (PStr "") ;;
  if py_truthy value && negb (re_match_int (py_str value)) then
    Ok (push warnings ("Non-numeric value in field " ++ fst item ++ ": "
                         ++ py_str value))
  else Ok warnings.

Definition add_amount (data : pyval) (code : string) (total : Z) : res Z :=
  present <- py_contains code data ;;
  if present then
    field <- py_getitem data code ;;
    val_str <- py_get field "value" (PStr "0") ;;
    if py_truthy val_str then
      n <- py_int val_str ;; Ok (total + n)%Z
    else Ok total
  else Ok total.

Definition cet1_checks (llm_data : pyval) (errors : list string)
  : list string * res unit :=
  match (data <- py_get llm_data "data" (PDict []) ;;
         components <-
           for_each ["010"; "020"; "030"; "040"] (add_amount data) 0%Z ;;
         deductions <- for_each ["070"] (add_amount data) 0%Z ;;
         total_field <- py_get data "100" (PDict []) ;;
         reported_cet1_str <- py_get total_field "value" (PStr "0") ;;
         reported_cet1 <- (if py_truthy reported_cet1_str
                           then py_int reported_cet1_str else Ok 0%Z) ;;
         Ok ((components - deductions)%Z, reported_cet1)) with
  | Raise e => (errors, Raise e)
  | Ok (calculated_cet1, reported_cet1) =>
      let mismatch :=
        if negb (calculated_cet1 =? reported_cet1)%Z then
          match (calculated <- py_format_grouped calculated_cet1 ;;
                 reported <- py_format_grouped reported_cet1 ;;
                 Ok ("CET1 calculation mismatch: Calculated " ++ calculated
                       ++ " vs Reported " ++ reported)) with
          | Ok message => (push errors message, Ok tt)
          | Raise e => (errors, Raise e)
          end
        else (errors, Ok tt) in
      match snd mismatch with
      | Raise e => mismatch
      | Ok _ =>
          if (reported_cet1 <? 0)%Z then
            match py_format_grouped reported_cet1 with
            | Ok reported =>
                (push (fst mismatch) ("CET1 is negative: " ++ reported),
                 Ok tt)
            | Raise e => (fst mismatch, Raise e)
            end
          else mismatch
      end
  end.

Definition validate_response (llm_data : pyval) : res verdict :=
  st <- for_each required_fields (check_required_field llm_data) ([], []) ;;
  data <- py_get llm_data "data" (PDict []) ;;
  items <- py_items data ;;
  warnings <- for_each items check_data_type (snd st) ;;
  let block := cet1_checks llm_data (fst st) in
  st' <- match snd block with
         | Ok _ => Ok (fst block, warnings)
         | Raise (ValueError e) =>
             Ok (fst block, push warnings ("Calculation error: " ++ e))
         | Raise e => Raise e
         end ;;
  Ok {| errors := fst st';
        warnings := snd st';
        is_valid := (List.length (fst st') =? 0)%nat |}.

End Assistant.

(** ** Templates: shape and contents *)

(** The data mapping of a document: what [llm_data.get("data", {})] is when
    the document is a mapping and its ["data"], if any, is one too. *)
Definition template_data (llm_data : pyval) : option pydict :=
  match llm_data with
  | PDict top =>
      match lookup "data" top with
      | None => Some []
      | Some (PDict d) => Some d
      | Some _ => None
      end
  | _ => None
  end.

Definition is_dict (v : pyval) : bool :=
  match v with
  | PDict _ => true
  | _ => false
  end.

Definition fields_are_dicts (d : pydict) : bool :=
  forallb (fun kv => is_dict (snd kv)) d.

(** The document is a mapping and its data, if any, is a mapping of
    mappings. *)
Definition well_shaped (llm_data : pyval) : bool :=
  match template_data llm_data with
  | Some d => fields_are_dicts d
  | None => false
  end.

Definition has_key (code : string) (d : pydict) : bool :=
  match lookup code d with
  | Some _ => true
  | None => false
  end.

(** [f.get("value", default)] of a field that is a mapping. *)
Definition value_or (f : pyval) (default : pyval) : pyval :=
  match f with
  | PDict fd =>
      match lookup "value" fd with
      | Some v => v
      | None => default
      end
  | _ => default
  end.

(** The text field [code] holds under its ["value"] key, when it is
    reported as a mapping and that value is a string. *)
Definition field_text (d : pydict) (code : string) : option string :=
  match lookup code d with
  | Some (PDict fd) =>
      match lookup "value" fd with
      | Some (PStr s) => Some s
      | _ => None
      end
  | _ => None
  end.

(** What field [code] adds to a sum: nothing when it is not reported or its
    value is falsy, [int(value)] otherwise. *)
Definition amount (d : pydict) (code : string) : res Z :=
  match lookup code d with
  | None => Ok 0%Z
  | Some f =>
      let v := value_or f (PStr "0") in
      if py_truthy v then py_int v else Ok 0%Z
  end.


(** ** The messages and the verdict, as functions of the data mapping *)

Definition missing_error (code : string) : string :=
  "Missing required field: " ++ code.

Definition empty_warning (code : string) : string :=
  "Empty value for field: " ++ code.

Definition mismatch_error (calculated reported : Z) : string :=
  "CET1 calculation mismatch: Calculated " ++ format_grouped calculated
    ++ " vs Reported " ++ format_grouped reported.

Definition negative_error (reported : Z) : string :=
  "CET1 is negative: " ++ format_grouped reported.

Definition calculation_warning (m : string) : string :=
  "Calculation error: " ++ m.

Definition is_missing (d : pydict) (code : string) : bool :=
  negb (has_key code d).

Definition is_empty (d : pydict) (code : string) : bool :=
  match lookup code d with
  | Some f => negb (py_truthy (value_or f PNone))
  | None => false
  end.

Definition missing_errors (d : pydict) (codes : list string) : list string :=
  map missing_error (filter (is_missing d) codes).

Definition empty_warnings (d : pydict) (codes : list string) : list string :=
  map empty_warning (filter (is_empty d) codes).

(** The warning of the numeric-format pass for one item, if any. *)
Definition type_warning (item : string * pyval) : list string :=
  let value := value_or (snd item) (PStr "") in
  if py_truthy value && negb (re_match_int (py_str value)) then
    ["Non-numeric value in field " ++ fst item ++ ": " ++ py_str value]
  else [].

Definition type_warnings (d : pydict) : list string :=
  flat_map type_warning d.

(** The errors of the reconciliation and of the sign check, given the two
    totals. *)
Definition total_errors (calculated reported : Z) : list string :=
  ((if negb (calculated =? reported)%Z
    then [mismatch_error calculated reported] else [])
   ++ (if (reported <? 0)%Z then [negative_error reported] else []))%list.

(** The same errors as the block produces them: a total that is written
    into a message has to fit the limit on digits, and the block ends with
    a [ValueError], before it has appended anything, when one does not. *)
Definition formatted_errors (calculated reported : Z) : res (list string) :=
  if negb (calculated =? reported)%Z then
    if fits_str_digits calculated && fits_str_digits reported
    then Ok (total_errors calculated reported)
    else Raise (ValueError exceeds_limit_text)
  else if (reported <? 0)%Z then
    if fits_str_digits reported
    then Ok (total_errors calculated reported)
    else Raise (ValueError exceeds_limit_text)
  else Ok (total_errors calculated reported).

(** The [try] block as a function of the data mapping: the six amounts are
    read in the order 010, 020, 030, 040, 070, 100. *)
Definition arithmetic (d : pydict) : res (list string) :=
  a <- amount d "010" ;;
  b <- amount d "020" ;;
  c <- amount d "030" ;;
  e <- amount d "040" ;;
  x <- amount d "070" ;;
  r <- amount d "100" ;;
  formatted_errors (a + b + c + e - x) r.

Definition verdict_of (errs warns : list string) : verdict :=
  {| errors := errs; warnings := warns;
     is_valid := (List.length errs =? 0)%nat |}.

(** The outcome of validation in terms of the data mapping. *)
Definition outcome (d : pydict) : res verdict :=
  let warns := (empty_warnings d Engine.required_fields ++ type_warnings d)%list in
  match arithmetic d with
  | Ok errs =>
      Ok (verdict_of (missing_errors d Engine.required_fields ++ errs)%list warns)
  | Raise (ValueError m) =>
      Ok (verdict_of (missing_errors d Engine.required_fields)
                     (warns ++ [calculation_warning m])%list)
  | Raise e => Raise e
  end.

(** ** Values that [int()] reads or rejects, and exceptions *)

Definition plain_value (v : pyval) : bool :=
  match v with
  | PNone | PStr _ | PInt _ | PBool _ => true
  | _ => false
  end.

(** Every field's value is null, a string, an integer or a boolean. *)
Definition plain_values (d : pydict) : bool :=
  forallb (fun kv => plain_value (value_or (snd kv) PNone)) d.

(** The same, with integers of at most [max_str_digits] digits: the values
    that [json.loads] produces, nested values and decimals apart. *)
Definition sized_value (v : pyval) : bool :=
  match v with
  | PNone | PStr _ | PBool _ => true
  | PInt z => fits_str_digits z
  | _ => false
  end.

Definition sized_values (d : pydict) : bool :=
  forallb (fun kv => sized_value (value_or (snd kv) PNone)) d.

(** The fields the two summing loops read, in the order they are read. *)
Definition summed_fields : list string := ["010"; "020"; "030"; "040"; "070"].

Definition is_ok {A : Type} (r : res A) : bool :=
  match r with
  | Ok _ => true
  | Raise _ => false
  end.

(** Every summed field is left out, empty, or holds what [int()] reads. *)
Definition amounts_parse (d : pydict) : bool :=
  forallb (fun code => is_ok (amount d code)) summed_fields.

Definition escapes (e : exn) : bool :=
  match e with
  | AttributeError | TypeError | OverflowError => true
  | KeyError | ValueError _ => false
  end.

Definition shape_error (e : exn) : bool :=
  match e with
  | AttributeError | TypeError => true
  | _ => false
  end.

(** ** The spec's words *)

(** The spec's numeric pattern, in its words: an optional leading minus
    sign followed by one or more decimal digits only. *)
Definition digits_only (s : string) : bool :=
  let l := list_ascii_of_string s in
  let l := match l with
           | c :: r => if Ascii.eqb c "-"%char then r else l
           | [] => l
           end in
  match l with
  | [] => false
  | _ :: _ => forallb is_digit l
  end.


(** The spec's reading of the reconciliation, in its words: a value that
    cannot be parsed contributes 0, the reported total defaults to 0, and
    the template reconciles when the two totals are equal. *)
Definition zero_substituted (d : pydict) (code : string) : Z :=
  match amount d code with
  | Ok z => z
  | Raise _ => 0%Z
  end.

Definition reconciles_with_zero_substitution (d : pydict) : bool :=
  (zero_substituted d "010" + zero_substituted d "020"
   + zero_substituted d "030" + zero_substituted d "040"
   - zero_substituted d "070" =? zero_substituted d "100")%Z.

(** ** Grouped numbers *)

Definition not_comma (c : ascii) : bool := negb (Ascii.eqb c ","%char).

Definition strip_commas (s : string) : string :=
  string_of_list_ascii (filter not_comma (list_ascii_of_string s)).

(** ** Example documents *)

Definition field (code value : string) : string * pyval :=
  (code, PDict [("value", PStr value)]).

Definition template (data : pydict) : pyval :=
  PDict [("template", PStr "C 01.00"); ("data", PDict data)].

Definition nl_str : string := String newline "".

Definition mismatch_template : pyval :=
  template [field "010" "150000000"; field "020" "75000000";
            field "030" "300000000"; field "040" "25000000";
            field "070" "45000000"; field "100" "999"].

Definition mismatch_verdict : verdict :=
  {| errors :=
       ["CET1 calculation mismatch: Calculated 505,000,000 vs Reported 999"];
     warnings := [];
     is_valid := false |}.


(** 030 is not reported, 010 is reported with an empty value. *)
Definition incomplete_data : pydict :=
  [field "010" ""; field "020" "7"; field "100" "7"].

Definition incomplete_verdict : verdict :=
  {| errors := ["Missing required field: 030"];
     warnings := ["Empty value for field: 010"];
     is_valid := false |}.

(** Components 0, deduction 10, reported total -10: the totals agree. *)
Definition negative_data : pydict :=
  [field "010" "0"; field "020" "0"; field "030" "0"; field "040" "0";
   field "070" "10"; field "100" "-10"].

Definition negative_verdict : verdict :=
  {| errors := ["CET1 is negative: -10"];
     warnings := [];
     is_valid := false |}.

(** Deduction 10 and reported total -10, with a component of 5. *)
Definition negative_mismatch_data : pydict :=
  [field "010" "5"; field "020" "0"; field "030" "0"; field "040" "0";
   field "070" "10"; field "100" "-10"].

(** 010 holds "abc"; with 0 in its place the components sum to 0, and the
    reported total is 999. *)
Definition unparsable_data : pydict :=
  [field "010" "abc"; field "020" "0"; field "030" "0"; field "100" "999"].


(** 010 and 020 hold as many nines as the limit on digits allows: [int()]
    reads each, and their sum has one digit more. *)
Definition nines : string :=
  string_of_list_ascii (repeat "9"%char max_str_digits).


(** 010 holds "12" followed by a newline. *)
Definition newline_data : pydict :=
  [field "010" ("12" ++ nl_str); field "020" "0"; field "030" "0";
   field "100" "12"].

(** 010 holds the number 0. *)
Definition zero_number_data : pydict :=
  [("010", PDict [("value", PInt 0)]); field "020" "7"; field "030" "0";
   field "100" "7"].

(** ** More built-ins: [len()], alignment, [re.search] *)

(** [len(v)] *)
Definition py_len (v : pyval) : res Z :=
  match v with
  | PStr s => Ok (Z.of_nat (String.length s))
  | PList l => Ok (Z.of_nat (List.length l))
  | PDict d => Ok (Z.of_nat (List.length d))
  | _ => Raise TypeError
  end.





(** The suffix of [l] that starts at its first [c]. *)
Fixpoint from_first (c : ascii) (l : list ascii) : option (list ascii) :=
  match l with
  | [] => None
  | x :: r => if Ascii.eqb x c then Some l else from_first c r
  end.

(** The prefix of [l] that ends at its last [c]. *)
Fixpoint upto_last (c : ascii) (l : list ascii) : option (list ascii) :=
  match l with
  | [] => None
  | x :: r =>
      match upto_last c r with
      | Some p => Some (x :: p)
      | None => if Ascii.eqb x c then Some [x] else None
      end
  end.

(** [re.search(r'\{.*\}', s, re.DOTALL)] and the [group()] of the match:
    the search starts at the first opening brace, and the greedy [.*], which
    also runs over newlines, gives way only back to the last closing
    brace.  When no closing brace follows the first opening brace, none
    follows a later one either. *)
Definition re_search_braces (s : string) : option string :=
  match from_first "{"%char (list_ascii_of_string s) with
  | Some t => option_map string_of_list_ascii (upto_last "}"%char t)
  | None => None
  end.

(** ** The rest of the pipeline: parsing, [process_query], display, report *)

(** The verdict as the [dict] that [validate_response] returns. *)
Definition verdict_dict (v : verdict) : pyval :=
  PDict [("errors", PList (map PStr (errors v)));
         ("warnings", PList (map PStr (warnings v)));
         ("is_valid", PBool (is_valid v))].

Section Pipeline.

(** What the engine does not contain: [json.loads] ([None] when it raises
    [JSONDecodeError]), the prompt template, the remote model ([None] when
    [call_llm] returns [None]) and the clock.  These are the runs in which
    [generate_prompt] returns a prompt and [json.loads] returns a value or
    raises [JSONDecodeError]; a run in which one of them raises something
    else ([KeyError] on a schema without the section, [RecursionError] or
    the [ValueError] of the limit on digits inside the decoder) ends with
    that exception before validation starts, and is not described here. *)
Variable json_loads : string -> option pyval.
Variable generate_prompt : string -> string.
Variable call_llm : string -> option string.
Variable now_isoformat : string.

(** corep_engine.py and main.py: [parse_llm_response]; the result is [None]
    when decoding fails. *)
Definition parse_llm_response (response_text : string) : pyval :=
  let decoded :=
    match re_search_braces response_text with
    | Some json_str => json_loads json_str
    | None => json_loads response_text
    end in
  match decoded with
  | Some llm_data => llm_data
  | None => PNone
  end.

(** corep_engine.py: [COREPEngine.process_query] *)
Definition process_query (user_input : string) : res pyval :=
  let prompt := generate_prompt user_input in
  match call_llm prompt with
  | None => Ok (PDict [("error", PStr "LLM call failed")])
  | Some llm_response =>
      if negb (py_truthy (PStr llm_response)) then
        Ok (PDict [("error", PStr "LLM call failed")])
      else
        let llm_data := parse_llm_response llm_response in
        if negb (py_truthy llm_data) then
          Ok (PDict [("error", PStr "Failed to parse response")])
        else
          validation_results <- Engine.validate_response llm_data ;;
          Ok (PDict [("success", PBool true);
                     ("template_data", llm_data);
                     ("validation", verdict_dict validation_results);
                     ("timestamp", PStr now_isoformat);
                     ("user_query", PStr user_input)])
  end.

End Pipeline.

(** app.py, [process_report]: the query kept in the history,
    [user_input[:80] + "..." if len(user_input) > 80 else user_input]. *)
Definition history_query (user_input : string) : string :=
  if (80 <? String.length user_input)%nat
  then substring 0 80 user_input ++ "..."
  else user_input.

(** The pound sign, U+00A3. *)
Definition pound : string := String (chr 163) "".

Definition display_codes : list string :=
  ["010"; "020"; "030"; "040"; "070"; "100"].

(** app.py, [display_template]: the [try] that formats a value; its bare
    [except] keeps the value as it is, whatever was raised. *)
Definition app_amount (field_info value : pyval) : pyval :=
  match (val_int <- (if py_truthy value then py_int value else Ok 0%Z) ;;
         deduction <- py_get field_info "is_deduction" (PBool false) ;;
         Ok (if py_truthy deduction
             then pound ++ "(" ++ format_grouped (Z.abs val_int) ++ ")"
             else pound ++ format_grouped val_int)) with
  | Ok formatted => PStr formatted
  | Raise _ => value
  end.

(** One turn of the loop that builds [rows]. *)
Definition add_row (data : pyval) (code : string) (rows : list pyval)
  : res (list pyval) :=
  present <- py_contains code data ;;
  if present then
    field_info <- py_getitem data code ;;
    value <- py_get field_info "value" (PStr "0") ;;
    desc <- py_get field_info "description" (PStr "") ;;
    let formatted := app_amount field_info value in
    deduction <- py_get field_info "is_deduction" (PBool false) ;;
    Ok (push rows
          (PDict [("Row", PStr code);
                  ("Description", desc);
                  ("Amount", formatted);
                  ("Type", PStr (if py_truthy deduction
                                 then "Deduction" else "Component"))]))
  else Ok rows.

(** app.py, [display_template]: the rows handed to the table, then the
    formulas of ["calculations"] handed to the expander. *)
Definition template_rows (template_data : pyval) : res (list pyval) :=
  data <- py_get template_data "data" (PDict []) ;;
  for_each display_codes (add_row data) [].

Definition shown_calculations (template_data : pyval) : res (list pyval) :=
  present <- py_contains "calculations" template_data ;;
  if present then
    calculations <- py_getitem template_data "calculations" ;;
    items <- py_items calculations ;;
    Ok (map snd items)
  else Ok [].

Definition display_template (template_data : pyval)
  : res (list pyval * list pyval) :=
  rows <- template_rows template_data ;;
  formulas <- shown_calculations template_data ;;
  Ok (rows, formulas).





(** main.py, [save_report], up to the point where the file is opened: the
    name of the file and the report that is then handed to [json.dump];
    [stamp] and [generated_at] are the two readings of the clock.  Opening
    and writing the file are not part of this definition. *)
Definition save_report_record (stamp generated_at : string)
    (llm_data validation_results : pyval) : res (string * pyval) :=
  let filename := "corep_report_" ++ stamp ++ ".json" in
  template_id <- py_get llm_data "template" (PStr "C 01.00") ;;
  data <- py_get llm_data "data" (PDict []) ;;
  fields_populated <- py_len data ;;
  found_errors <- py_getitem validation_results "errors" ;;
  n_errors <- py_len found_errors ;;
  found_warnings <- py_getitem validation_results "warnings" ;;
  n_warnings <- py_len found_warnings ;;
  Ok (filename,
      PDict [("metadata",
              PDict [("generated_at", PStr generated_at);
                     ("template", template_id);
                     ("assistant_version", PStr "1.0")]);
             ("report_data", llm_data);
             ("validation_results", validation_results);
             ("summary",
              PDict [("fields_populated", PInt fields_populated);
                     ("has_errors", PBool (0 <? n_errors)%Z);
                     ("has_warnings", PBool (0 <? n_warnings)%Z)])]).

(** ** Views of a field, rows and lines, and more example documents *)


(** The reconciled template with descriptions, flags put the other way
    round, one more row and a narrative. *)
Definition decorated_template : pyval :=
  PDict [("data",
          PDict [("010", PDict [("value", PStr "150000000");
                                ("description", PStr "Ordinary share capital");
                                ("is_deduction", PBool true)]);
                 ("020", PDict [("value", PStr "75000000")]);
                 ("030", PDict [("value", PStr "300000000")]);
                 ("040", PDict [("value", PStr "25000000")]);
                 ("070", PDict [("value", PStr "45000000");
                                ("is_deduction", PBool false)]);
                 ("090", PDict [("value", PStr "n/a")]);
                 ("100", PDict [("value", PStr "505000000");
                                ("is_calculated", PBool true)])]);
         ("calculations", PStr "010 + 020 + 030 + 040 - 070")].

(** app.py, [process_report]: what it reads of the result of
    [process_query]: nothing more when [result.get("error")] is truthy (it
    reports the error and returns), else
    [result["validation"]["is_valid"]], which picks the status kept in the
    history. *)
Definition report_status (result : pyval) : res (option pyval) :=
  reported <- py_get result "error" PNone ;;
  if py_truthy reported then Ok None
  else
    validation <- py_getitem result "validation" ;;
    valid <- py_getitem validation "is_valid" ;;
    Ok (Some valid).

(** A decoder that knows two texts, and a model that answers with an
    empty object wrapped in a sentence. *)
Definition toy_loads (s : string) : option pyval :=
  if s =? "{}" then Some (PDict [])
  else if s =? "{1}" then Some (template negative_data)
  else None.

(** Whether a field is flagged as a deduction:
    [field_info.get("is_deduction", False)] as a truth value. *)
Definition flagged_deduction (f : pyval) : bool :=
  match py_get f "is_deduction" (PBool false) with
  | Ok x => py_truthy x
  | Raise _ => false
  end.


(** [field_info.get("description", "")] of a field that is a mapping. *)
Definition description_of (f : pyval) : pyval :=
  match py_get f "description" (PStr "") with
  | Ok x => x
  | Raise _ => PNone
  end.

(** The row of app.py for a reported field. *)
Definition row_of (code : string) (f : pyval) : pyval :=
  PDict [("Row", PStr code);
         ("Description", description_of f);
         ("Amount", app_amount f (value_or f (PStr "0")));
         ("Type", PStr (if flagged_deduction f
                        then "Deduction" else "Component"))].

Definition rows_of (d : pydict) (codes : list string) : list pyval :=
  flat_map (fun code => match lookup code d with
                        | Some f => [row_of code f]
                        | None => []
                        end) codes.



(** ** The shape of the document *)

(** Case analysis on the test of the [if] the goal is stuck on. *)
Ltac case_if :=
  match goal with
  | |- context [if ?c then _ else _] => destruct c
  end.

Lemma lookup_is_dict (d : pydict) (code : string) (f : pyval) :
  fields_are_dicts d = true -> lookup code d = Some f ->
  exists fd, f = PDict fd.
Proof.
  induction d as [|[k v] d IH]; simpl; intros Hd Hl; [discriminate|].
  apply andb_prop in Hd. destruct Hd as [Hv Hd].
  destruct (k =? code).
  - inversion Hl; subst. destruct f; try discriminate. eauto.
  - auto.
Qed.

Lemma lookup_forallb (P : pyval -> bool) (d : pydict) (code : string)
    (f : pyval) :
  forallb (fun kv => P (snd kv)) d = true -> lookup code d = Some f ->
  P f = true.
Proof.
  induction d as [|[k x] d IH]; cbn [lookup forallb snd]; intros Hd Hl;
    [discriminate|].
  apply andb_prop in Hd. destruct Hd as [Hx Hd].
  destruct (k =? code); [inversion Hl; subst; exact Hx|auto].
Qed.

Lemma template_data_get (llm_data : pyval) (d : pydict) :
  template_data llm_data = Some d ->
  py_get llm_data "data" (PDict []) = Ok (PDict d).
Proof.
  destruct llm_data as [| | | | |l|top]; simpl; try discriminate.
  destruct (lookup "data" top) as [[| | | | |l|d']|]; intros H;
    inversion H; subst; reflexivity.
Qed.

Lemma template_data_getitem (llm_data : pyval) (d : pydict) (code : string) :
  template_data llm_data = Some d -> has_key code d = true ->
  py_getitem llm_data "data" = Ok (PDict d).
Proof.
  destruct llm_data as [| | | | |l|top]; simpl; try discriminate.
  destruct (lookup "data" top) as [[| | | | |l|d']|]; intros H Hk;
    inversion H; subst; try reflexivity.
  discriminate.
Qed.

(** ** The three passes on a well-shaped document *)

Lemma check_required_field_eq (llm_data : pyval) (d : pydict)
    (code : string) (st : findings) :
  template_data llm_data = Some d -> fields_are_dicts d = true ->
  Engine.check_required_field llm_data code st
  = Ok ((fst st ++ missing_errors d [code])%list,
        (snd st ++ empty_warnings d [code])%list).
Proof.
  intros Ht Hd. unfold Engine.check_required_field.
  rewrite (template_data_get _ _ Ht). simpl.
  unfold missing_errors, empty_warnings, is_missing, is_empty. simpl.
  pose proof (template_data_getitem llm_data d code Ht) as Hg.
  unfold has_key in *.
  destruct (lookup code d) as [f|] eqn:Hl; simpl.
  - rewrite (Hg eq_refl). simpl. rewrite Hl. simpl.
    destruct (lookup_is_dict _ _ _ Hd Hl) as [fd ->]. simpl.
    destruct (lookup "value" fd) as [v|]; simpl.
    + destruct (py_truthy v); simpl; rewrite ?app_nil_r;
        destruct st; reflexivity.
    + rewrite app_nil_r. reflexivity.
  - rewrite app_nil_r. reflexivity.
Qed.

Lemma check_required_eq (llm_data : pyval) (d : pydict)
    (codes : list string) (st : findings) :
  template_data llm_data = Some d -> fields_are_dicts d = true ->
  for_each codes (Engine.check_required_field llm_data) st
  = Ok ((fst st ++ missing_errors d codes)%list,
        (snd st ++ empty_warnings d codes)%list).
Proof.
  intros Ht Hd. revert st.
  induction codes as [|code codes IH]; intros st; simpl.
  - unfold missing_errors, empty_warnings. simpl.
    rewrite !app_nil_r. destruct st; reflexivity.
  - rewrite (check_required_field_eq _ _ _ _ Ht Hd). simpl.
    rewrite IH. simpl.
    unfold missing_errors, empty_warnings. simpl.
    destruct (is_missing d code), (is_empty d code); simpl;
      rewrite <- ?app_assoc, ?app_nil_r; reflexivity.
Qed.

Lemma check_data_types_eq (d : pydict) (warns : list string) :
  fields_are_dicts d = true ->
  for_each d Engine.check_data_type warns = Ok (warns ++ type_warnings d)%list.
Proof.
  revert warns. induction d as [|[k f] d IH]; intros warns Hd; simpl.
  - rewrite app_nil_r. reflexivity.
  - simpl in Hd. apply andb_prop in Hd. destruct Hd as [Hf Hd].
    destruct f; try discriminate.
    unfold Engine.check_data_type, type_warning. simpl.
    destruct (py_truthy _ && negb _); simpl; rewrite IH by assumption;
      unfold push; rewrite <- ?app_assoc; reflexivity.
Qed.

Lemma add_amount_eq (d : pydict) (code : string) (total : Z) :
  fields_are_dicts d = true ->
  Engine.add_amount (PDict d) code total
  = (n <- amount d code ;; Ok (total + n)%Z).
Proof.
  intros Hd. unfold Engine.add_amount, amount. simpl.
  destruct (lookup code d) as [f|] eqn:Hl; simpl.
  - destruct (lookup_is_dict _ _ _ Hd Hl) as [fd ->]. simpl.
    destruct (py_truthy _); simpl; [reflexivity|].
    rewrite Z.add_0_r. reflexivity.
  - rewrite Z.add_0_r. reflexivity.
Qed.

Lemma reported_eq (d : pydict) :
  fields_are_dicts d = true ->
  (total_field <- py_get (PDict d) "100" (PDict []) ;;
   reported_cet1_str <- py_get total_field "value" (PStr "0") ;;
   if py_truthy reported_cet1_str then py_int reported_cet1_str else Ok 0%Z)
  = amount d "100".
Proof.
  intros Hd. unfold amount. cbn [py_get bind].
  destruct (lookup "100" d) as [f|] eqn:Hl.
  - destruct (lookup_is_dict _ _ _ Hd Hl) as [fd ->]. reflexivity.
  - reflexivity.
Qed.

Lemma cet1_checks_eq (llm_data : pyval) (d : pydict) (errs : list string) :
  template_data llm_data = Some d -> fields_are_dicts d = true ->
  Engine.cet1_checks llm_data errs
  = match arithmetic d with
    | Ok found => ((errs ++ found)%list, Ok tt)
    | Raise e => (errs, Raise e)
    end.
Proof.
  intros Ht Hd. unfold Engine.cet1_checks, arithmetic.
  rewrite (template_data_get _ _ Ht). cbn [bind for_each].
  rewrite (add_amount_eq _ _ _ Hd).
  destruct (amount d "010") as [a|]; cbn [bind]; [|reflexivity].
  rewrite (add_amount_eq _ _ _ Hd).
  destruct (amount d "020") as [b|]; cbn [bind]; [|reflexivity].
  rewrite (add_amount_eq _ _ _ Hd).
  destruct (amount d "030") as [c|]; cbn [bind]; [|reflexivity].
  rewrite (add_amount_eq _ _ _ Hd).
  destruct (amount d "040") as [e|]; cbn [bind]; [|reflexivity].
  rewrite (add_amount_eq _ _ _ Hd).
  destruct (amount d "070") as [x|]; cbn [bind]; [|reflexivity].
  rewrite <- (reported_eq d Hd). cbn [py_get bind].
  destruct (py_get _ "value" (PStr "0")) as [s|]; cbn [bind]; [|reflexivity].
  destruct (if py_truthy s then py_int s else Ok 0%Z) as [r|]; cbn [bind];
    [|reflexivity].
  unfold formatted_errors, total_errors, py_format_grouped, push,
    mismatch_error, negative_error.
  rewrite !Z.add_0_l.
  destruct (negb _), (fits_str_digits (a + b + c + e - x)),
    (fits_str_digits r), (r <? 0)%Z;
    cbn [bind fst snd andb app]; rewrite <- ?app_assoc, ?app_nil_r;
    reflexivity.
Qed.

(** On a document whose data is a mapping of mappings, validation is
    [outcome]. *)
Lemma validate_response_outcome (llm_data : pyval) (d : pydict) :
  template_data llm_data = Some d -> fields_are_dicts d = true ->
  Engine.validate_response llm_data = outcome d.
Proof.
  intros Ht Hd. unfold Engine.validate_response, outcome.
  rewrite (check_required_eq _ _ _ _ Ht Hd). cbn [bind fst snd app].
  rewrite (template_data_get _ _ Ht). cbn [bind py_items].
  rewrite (check_data_types_eq _ _ Hd). cbn [bind].
  rewrite (cet1_checks_eq _ _ _ Ht Hd).
  destruct (arithmetic d) as [found|[| | | |m]]; cbn [bind fst snd];
    try reflexivity.
Qed.

(** Whenever validation returns a verdict, the document is a mapping whose
    data is a mapping of mappings. *)
Lemma check_data_types_ok (d : pydict) (warns warns' : list string) :
  for_each d Engine.check_data_type warns = Ok warns' ->
  fields_are_dicts d = true.
Proof.
  revert warns. induction d as [|[k f] d IH]; intros warns H; [reflexivity|].
  cbn [for_each] in H. unfold Engine.check_data_type in H at 1.
  destruct f; try discriminate H.
  cbn [snd fst py_get bind] in H.
  match type of H with
  | context [if ?c then _ else _] => destruct c
  end; cbn [bind] in H; apply IH in H;
    unfold fields_are_dicts in *; cbn [forallb snd is_dict andb]; exact H.
Qed.

Lemma validate_response_ok_shape (llm_data : pyval) (v : verdict) :
  Engine.validate_response llm_data = Ok v ->
  exists d, template_data llm_data = Some d /\ fields_are_dicts d = true.
Proof.
  unfold Engine.validate_response. intros H.
  destruct (for_each Engine.required_fields _ _) as [st|]; [|discriminate].
  cbn [bind] in H.
  destruct llm_data as [| | | | |l|top]; try discriminate H.
  unfold template_data. cbn [py_get bind] in H.
  destruct (lookup "data" top) as [[| | | | |l|d]|]; try discriminate H.
  - exists d. split; [reflexivity|].
    cbn [py_items bind] in H.
    destruct (for_each d Engine.check_data_type (snd st)) as [w|] eqn:Hw;
      [|discriminate].
    eapply check_data_types_ok; eauto.
  - exists []. split; reflexivity.
Qed.

Lemma validate_response_is_valid (llm_data : pyval) (v : verdict) :
  Engine.validate_response llm_data = Ok v ->
  is_valid v = (List.length (errors v) =? 0)%nat.
Proof.
  unfold Engine.validate_response. intros H.
  destruct (for_each Engine.required_fields _ _) as [st|]; [|discriminate].
  cbn [bind] in H.
  destruct (py_get llm_data "data" (PDict [])) as [data|]; [|discriminate].
  cbn [bind] in H.
  destruct (py_items data) as [items|]; [|discriminate].
  cbn [bind] in H.
  destruct (for_each items Engine.check_data_type (snd st)) as [w|];
    [|discriminate].
  cbn [bind] in H.
  destruct (Engine.cet1_checks llm_data (fst st)) as [errs [u|[| | | |m]]];
    cbn [bind fst snd] in H; try discriminate H; inversion H; reflexivity.
Qed.

(** ** What the messages look like *)

Lemma missing_error_inj (a b : string) :
  missing_error a = missing_error b -> a = b.
Proof.
  unfold missing_error. cbn [append]. intros H. injection H. auto.
Qed.

Lemma empty_warning_inj (a b : string) :
  empty_warning a = empty_warning b -> a = b.
Proof.
  unfold empty_warning. cbn [append]. intros H. injection H. auto.
Qed.

Lemma total_errors_not_missing (calculated reported : Z) (code : string) :
  ~ In (missing_error code) (total_errors calculated reported).
Proof.
  unfold total_errors, missing_error, mismatch_error, negative_error.
  intros H. apply in_app_or in H.
  destruct H as [H|H];
    [destruct (negb _)|destruct (reported <? 0)%Z]; cbn [In append] in H;
    try contradiction; destruct H as [H|[]]; discriminate H.
Qed.

Lemma type_warnings_not_empty_warning (d : pydict) (code : string) :
  ~ In (empty_warning code) (type_warnings d).
Proof.
  unfold type_warnings. rewrite in_flat_map. intros [item [_ H]].
  unfold type_warning in H.
  destruct (py_truthy _ && negb _); cbn [In append] in H;
    [destruct H as [H|[]]; discriminate H|contradiction].
Qed.

Lemma in_missing_errors (d : pydict) (codes : list string) (code : string) :
  In (missing_error code) (missing_errors d codes)
  <-> In code codes /\ has_key code d = false.
Proof.
  unfold missing_errors. rewrite in_map_iff. split.
  - intros [c [Hc Hin]]. apply missing_error_inj in Hc. subst c.
    apply filter_In in Hin. destruct Hin as [Hin Hm].
    unfold is_missing in Hm. apply negb_true_iff in Hm. auto.
  - intros [Hin Hk]. exists code. split; [reflexivity|].
    apply filter_In. unfold is_missing. rewrite Hk. auto.
Qed.

Lemma in_empty_warnings (d : pydict) (codes : list string) (code : string) :
  In (empty_warning code) (empty_warnings d codes)
  <-> In code codes /\ is_empty d code = true.
Proof.
  unfold empty_warnings. rewrite in_map_iff. split.
  - intros [c [Hc Hin]]. apply empty_warning_inj in Hc. subst c.
    apply filter_In in Hin. exact Hin.
  - intros [Hin Hk]. exists code. split; [reflexivity|].
    apply filter_In. auto.
Qed.

Lemma count_missing_errors (d : pydict) (codes : list string) (code : string) :
  NoDup codes -> In code codes -> has_key code d = false ->
  count_occ string_dec (missing_errors d codes) (missing_error code) = 1%nat.
Proof.
  intros Hnd Hin Hk. apply (proj1 (NoDup_count_occ' string_dec _)).
  - unfold missing_errors. apply Finite.Injective_map_NoDup.
    + intros a b. apply missing_error_inj.
    + apply NoDup_filter. exact Hnd.
  - apply in_missing_errors. auto.
Qed.

Lemma count_empty_warnings (d : pydict) (codes : list string) (code : string) :
  NoDup codes -> In code codes -> is_empty d code = true ->
  count_occ string_dec (empty_warnings d codes) (empty_warning code) = 1%nat.
Proof.
  intros Hnd Hin Hk. apply (proj1 (NoDup_count_occ' string_dec _)).
  - unfold empty_warnings. apply Finite.Injective_map_NoDup.
    + intros a b. apply empty_warning_inj.
    + apply NoDup_filter. exact Hnd.
  - apply in_empty_warnings. auto.
Qed.

Lemma required_fields_NoDup : NoDup Engine.required_fields.
Proof.
  unfold Engine.required_fields.
  repeat (constructor; [cbn [In]; intuition discriminate|]). constructor.
Qed.

Lemma no_missing_errors (d : pydict) (codes : list string) :
  (List.length (missing_errors d codes) =? 0)%nat
  = forallb (fun code => has_key code d) codes.
Proof.
  unfold missing_errors.
  induction codes as [|code codes IH]; [reflexivity|].
  cbn [filter forallb]. unfold is_missing at 1.
  destruct (has_key code d); cbn [negb andb map List.length Nat.eqb];
    [exact IH|reflexivity].
Qed.


Lemma formatted_errors_ok (calculated reported : Z) (found : list string) :
  formatted_errors calculated reported = Ok found ->
  found = total_errors calculated reported.
Proof.
  unfold formatted_errors.
  destruct (negb _); [destruct (_ && _)|destruct (reported <? 0)%Z;
    [destruct (fits_str_digits reported)|]];
    intros H; inversion H; reflexivity.
Qed.

Lemma formatted_errors_raises (calculated reported : Z) (e : exn) :
  formatted_errors calculated reported = Raise e ->
  e = ValueError exceeds_limit_text.
Proof.
  unfold formatted_errors.
  destruct (negb _); [destruct (_ && _)|destruct (reported <? 0)%Z;
    [destruct (fits_str_digits reported)|]];
    intros H; inversion H; reflexivity.
Qed.


(** The two lists of a verdict that [outcome] returns. *)
Lemma outcome_ok (d : pydict) (v : verdict) :
  outcome d = Ok v ->
  exists found extra,
    errors v = (missing_errors d Engine.required_fields ++ found)%list
    /\ warnings v = (empty_warnings d Engine.required_fields
                     ++ type_warnings d ++ extra)%list
    /\ is_valid v = (List.length (errors v) =? 0)%nat
    /\ ((exists a r, arithmetic d = Ok found /\ found = total_errors a r
                     /\ extra = [])
        \/ (exists m, arithmetic d = Raise (ValueError m) /\ found = []
                      /\ extra = [calculation_warning m])).
Proof.
  unfold outcome. intros H.
  destruct (arithmetic d) as [found|[| | | |m]] eqn:Ha; try discriminate H;
    inversion H; subst v; clear H; cbn [errors warnings is_valid verdict_of].
  - exists found, []. rewrite !app_nil_r. repeat split.
    left. unfold arithmetic in Ha.
    destruct (amount d "010") as [a|]; [|discriminate].
    destruct (amount d "020") as [b|]; [|discriminate].
    destruct (amount d "030") as [c|]; [|discriminate].
    destruct (amount d "040") as [e|]; [|discriminate].
    destruct (amount d "070") as [x|]; [|discriminate].
    destruct (amount d "100") as [r|]; [|discriminate].
    cbn [bind] in Ha. rewrite (formatted_errors_ok _ _ _ Ha). eauto.
  - exists [], [calculation_warning m]. rewrite !app_nil_r.
    rewrite <- app_assoc. repeat split. right. eauto.
Qed.

(** ** Integer strings: the validator's pattern, the spec's pattern and [int()] *)

Lemma digit_facts (c : ascii) :
  is_digit c = true ->
  is_space c = false /\ Ascii.eqb c "+"%char = false
  /\ Ascii.eqb c "-"%char = false /\ Ascii.eqb c "_"%char = false.
Proof.
  destruct c as [[] [] [] [] [] [] [] []]; vm_compute; intros H;
    try discriminate H; repeat split.
Qed.

Lemma scan_digits_all (l : list ascii) (acc : Z) :
  forallb is_digit l = true ->
  exists z, scan_digits l acc false = Some (z, []).
Proof.
  revert acc. induction l as [|c l IH]; intros acc H; cbn [scan_digits].
  - eauto.
  - cbn [forallb] in H. apply andb_prop in H. destruct H as [Hc Hl].
    rewrite Hc. apply IH. exact Hl.
Qed.

Lemma digit_value_range (c : ascii) :
  is_digit c = true -> (0 <= digit_value c <= 9)%Z.
Proof.
  destruct c as [[] [] [] [] [] [] [] []]; vm_compute; intros H;
    try discriminate H; split; discriminate.
Qed.

(** What [scan_digits] reads is below the power of ten of the digits it
    counts. *)
Lemma scan_digits_bound (l : list ascii) (acc : Z) (prev_us : bool)
    (n : Z) (rest : list ascii) :
  (0 <= acc)%Z -> scan_digits l acc prev_us = Some (n, rest) ->
  (0 <= n < (acc + 1) * 10 ^ Z.of_nat (count_digits l))%Z.
Proof.
  revert acc prev_us.
  induction l as [|c l IH]; intros acc prev Hacc H;
    cbn [scan_digits count_digits] in *.
  - destruct prev; inversion H; subst. change (Z.of_nat 0) with 0%Z.
    rewrite Z.pow_0_r. lia.
  - destruct (is_digit c) eqn:Hc.
    + pose proof (digit_value_range c Hc) as Hv.
      apply IH in H; [|lia].
      rewrite Nat2Z.inj_succ, Z.pow_succ_r by lia.
      assert (Hpos : (0 < 10 ^ Z.of_nat (count_digits l))%Z)
        by (apply Z.pow_pos_nonneg; lia).
      nia.
    + destruct (Ascii.eqb c "_"%char).
      * destruct prev; [discriminate|]. eapply IH; eauto.
      * destruct prev; inversion H; subst. change (Z.of_nat 0) with 0%Z.
        rewrite Z.pow_0_r. lia.
Qed.

(** An integer that [int()] reads from a string fits the limit on digits. *)
Lemma read_int_fits (s : string) (z : Z) :
  read_int s = ReadInt z -> fits_str_digits z = true.
Proof.
  unfold read_int. cbv zeta.
  match goal with |- context [snd ?p] => generalize p end.
  intros [neg body]. cbn [fst snd].
  destruct body as [|c r]; [discriminate|].
  destruct (is_digit c); [|discriminate].
  destruct (scan_digits (c :: r) 0 false) as [[n rest]|] eqn:Hs;
    [|discriminate].
  destruct (max_str_digits <? count_digits (c :: r))%nat eqn:Hmax;
    [discriminate|].
  destruct (skip_spaces rest); [|discriminate].
  intros H. inversion H; subst z. clear H.
  apply scan_digits_bound in Hs; [|lia]. apply Nat.ltb_ge in Hmax.
  unfold fits_str_digits. apply Z.ltb_lt.
  assert (Hle : (10 ^ Z.of_nat (count_digits (c :: r))
                 <= 10 ^ Z.of_nat max_str_digits)%Z)
    by (apply Z.pow_le_mono_r; lia).
  revert Hs Hle.
  generalize (10 ^ Z.of_nat (count_digits (c :: r)))%Z.
  generalize (10 ^ Z.of_nat max_str_digits)%Z.
  intros B C Hs Hle. destruct neg; lia.
Qed.


(** [int()] reports too many digits only above the limit. *)
Lemma read_int_too_many (s : string) (n : nat) :
  read_int s = TooManyDigits n -> (max_str_digits < n)%nat.
Proof.
  unfold read_int. cbv zeta.
  match goal with |- context [snd ?p] => generalize p end.
  intros [neg body]. cbn [fst snd].
  destruct body as [|c r]; [discriminate|].
  destruct (is_digit c); [|discriminate].
  destruct (scan_digits (c :: r) 0 false) as [[k rest]|]; [|discriminate].
  destruct (max_str_digits <? count_digits (c :: r))%nat eqn:Hmax.
  - intros H. inversion H; subst. apply Nat.ltb_lt. exact Hmax.
  - destruct (skip_spaces rest); discriminate.
Qed.

Lemma py_int_of_str_error (s : string) :
  py_int_of_str s = None ->
  py_int (PStr s) = Raise (ValueError (int_error_text s)).
Proof.
  unfold py_int_of_str, int_error_text. cbn [py_int].
  destruct (read_int s); [discriminate| |]; reflexivity.
Qed.

Lemma py_int_of_str_ok (s : string) (z : Z) :
  py_int_of_str s = Some z -> py_int (PStr s) = Ok z.
Proof.
  unfold py_int_of_str. cbn [py_int].
  destruct (read_int s); try discriminate.
  intros H. inversion H. reflexivity.
Qed.

(** The digits of a string of digits, with what may follow them in a
    string of the validator's pattern. *)
Lemma scan_digits_tail (l tail : list ascii) (acc : Z) :
  forallb is_digit l = true -> tail = [] \/ tail = [newline] ->
  exists z, scan_digits (l ++ tail)%list acc false = Some (z, tail).
Proof.
  intros H Ht. revert acc.
  induction l as [|c l IH]; intros acc; cbn [app scan_digits].
  - exists acc. destruct Ht as [->| ->]; reflexivity.
  - cbn [forallb] in H. apply andb_prop in H. destruct H as [Hc Hl].
    rewrite Hc. apply IH. exact Hl.
Qed.

Lemma count_digits_tail (l tail : list ascii) :
  forallb is_digit l = true -> tail = [] \/ tail = [newline] ->
  count_digits (l ++ tail)%list = List.length l.
Proof.
  intros H Ht. induction l as [|c l IH]; cbn [app count_digits List.length].
  - destruct Ht as [->| ->]; reflexivity.
  - cbn [forallb] in H. apply andb_prop in H. destruct H as [Hc Hl].
    rewrite Hc, (IH Hl). reflexivity.
Qed.

Lemma filter_digits_all (l : list ascii) :
  forallb is_digit l = true -> filter is_digit l = l.
Proof.
  induction l as [|c l IH]; [reflexivity|]. cbn [forallb filter].
  intros H. apply andb_prop in H. destruct H as [-> H]. rewrite (IH H).
  reflexivity.
Qed.

(** [int()] of an optional minus sign, digits, and nothing or a newline. *)
Lemma read_int_digits (neg : bool) (ds tail : list ascii) (n : Z) :
  ds <> [] -> forallb is_digit ds = true ->
  tail = [] \/ tail = [newline] ->
  scan_digits (ds ++ tail)%list 0 false = Some (n, tail) ->
  read_int (string_of_list_ascii
              ((if neg then ["-"%char] else []) ++ ds ++ tail))
  = if (max_str_digits <? List.length ds)%nat
    then TooManyDigits (List.length ds)
    else ReadInt (if neg then (- n)%Z else n).
Proof.
  intros Hne Hd Ht Hn. unfold read_int. cbv zeta.
  rewrite list_ascii_of_string_of_list_ascii.
  destruct ds as [|c ds]; [congruence|].
  pose proof Hd as Hd'. cbn [forallb] in Hd'. apply andb_prop in Hd'.
  destruct Hd' as [Hc _].
  destruct (digit_facts _ Hc) as [Hsp [Hplus [Hminus _]]].
  assert (Hsk : skip_spaces tail = [])
    by (destruct Ht as [->| ->]; reflexivity).
  destruct neg.
  - change (skip_spaces (["-"%char] ++ (c :: ds) ++ tail)%list)
      with ("-"%char :: (c :: ds) ++ tail)%list.
    cbn [Ascii.eqb Bool.eqb snd fst]. cbn [app]. rewrite Hc.
    cbn [app] in Hn. rewrite Hn.
    change (c :: (ds ++ tail)%list) with ((c :: ds) ++ tail)%list.
    rewrite (count_digits_tail _ _ Hd Ht), Hsk. reflexivity.
  - cbn [app skip_spaces]. rewrite Hsp, Hplus, Hminus. cbn [snd fst].
    rewrite Hc. cbn [app] in Hn. rewrite Hn.
    change (c :: (ds ++ tail)%list) with ((c :: ds) ++ tail)%list.
    rewrite (count_digits_tail _ _ Hd Ht), Hsk. reflexivity.
Qed.




Lemma limit_power_large : (10 <= 10 ^ Z.of_nat max_str_digits)%Z.
Proof.
  rewrite <- (Z.pow_1_r 10) at 1. apply Z.pow_le_mono_r; [lia|].
  change 1%Z with (Z.of_nat 1). apply inj_le. unfold max_str_digits.
  apply Nat.lt_0_succ.
Qed.


(** A value of the spec's pattern matches the validator's pattern, so it
    gets no warning. *)
Lemma skip_digits_all (l : list ascii) :
  forallb is_digit l = true -> skip_digits l = [].
Proof.
  induction l as [|c l IH]; [reflexivity|]. cbn [forallb skip_digits].
  intros H. apply andb_prop in H. destruct H as [-> H]. auto.
Qed.

Lemma digits_only_matches (s : string) :
  digits_only s = true -> re_match_int s = true.
Proof.
  unfold digits_only, re_match_int.
  destruct (list_ascii_of_string s) as [|c l]; [discriminate|].
  destruct (Ascii.eqb c "-"%char).
  - destruct l as [|c' l]; [discriminate|]. cbn [forallb]. intros H.
    apply andb_prop in H. destruct H as [-> H].
    rewrite (skip_digits_all _ H). reflexivity.
  - cbn [forallb]. intros H.
    apply andb_prop in H. destruct H as [-> H].
    rewrite (skip_digits_all _ H). reflexivity.
Qed.

Lemma at_dollar_skip_digits (l : list ascii) :
  at_dollar (skip_digits l) = true
  <-> forallb is_digit l = true
      \/ exists l0, l = (l0 ++ [newline])%list /\ forallb is_digit l0 = true.
Proof.
  induction l as [|c l IH].
  - split; auto.
  - cbn [skip_digits forallb]. destruct (is_digit c) eqn:Hc; cbn [andb].
    + rewrite IH. split.
      * intros [H|[l0 [-> H]]]; [auto|].
        right. exists (c :: l0). cbn [forallb]. rewrite Hc. auto.
      * intros [H|[l0 [Hl H]]]; [auto|]. right.
        destruct l0 as [|c0 l0]; inversion Hl; subst.
        -- discriminate Hc.
        -- cbn [forallb] in H. apply andb_prop in H. destruct H. eauto.
    + split.
      * cbn [at_dollar]. destruct l; [|discriminate]. intros H.
        apply Ascii.eqb_eq in H. subst c. right. exists []. auto.
      * intros [H|[l0 [Hl H]]]; [discriminate|].
        destruct l0 as [|c0 l0]; inversion Hl; subst.
        -- reflexivity.
        -- cbn [forallb] in H. rewrite Hc in H. discriminate H.
Qed.

Lemma list_ascii_snoc (s : string) (c : ascii) :
  list_ascii_of_string (s ++ String c "")
  = (list_ascii_of_string s ++ [c])%list.
Proof.
  induction s as [|a s IH]; [reflexivity|].
  cbn [append list_ascii_of_string app]. rewrite IH. reflexivity.
Qed.

(** The validator's pattern accepts the strings of the spec's pattern and
    the same strings followed by one newline, and no others. *)
Lemma re_match_int_spec (s : string) :
  re_match_int s = true
  <-> digits_only s = true
      \/ exists s0, s = s0 ++ nl_str /\ digits_only s0 = true.
Proof.
  split.
  - unfold re_match_int. intros H.
    destruct (digits_only s) eqn:Hs; [auto|]. right.
    unfold digits_only in Hs.
    rewrite <- (string_of_list_ascii_of_string s).
    destruct (list_ascii_of_string s) as [|c l]; [discriminate|].
    assert (Hl : forall c' l',
               is_digit c' && at_dollar (skip_digits l') = true ->
               forallb is_digit (c' :: l') = false ->
               exists l0, (c' :: l' = l0 ++ [newline])%list
                          /\ l0 <> [] /\ forallb is_digit l0 = true).
    { intros c' l' Hm Hd. apply andb_prop in Hm. destruct Hm as [Hc Hm].
      apply at_dollar_skip_digits in Hm. cbn [forallb] in Hd.
      rewrite Hc in Hd. cbn [andb] in Hd.
      destruct Hm as [Hm|[l0 [-> Hm]]]; [congruence|].
      exists (c' :: l0). cbn [forallb]. rewrite Hc.
      repeat split; auto. discriminate. }
    destruct (Ascii.eqb c "-"%char) eqn:Hminus.
    + destruct l as [|c' l']; [discriminate|].
      destruct (Hl _ _ H Hs) as [l0 [Hl0 [Hne Hd]]].
      exists (string_of_list_ascii (c :: l0)). split.
      * rewrite Hl0. unfold nl_str.
        rewrite <- (string_of_list_ascii_of_string
                      (string_of_list_ascii (c :: l0) ++ String newline "")).
        rewrite list_ascii_snoc, list_ascii_of_string_of_list_ascii.
        reflexivity.
      * unfold digits_only. rewrite list_ascii_of_string_of_list_ascii, Hminus.
        destruct l0; [congruence|exact Hd].
    + destruct (Hl _ _ H Hs) as [l0 [Hl0 [Hne Hd]]].
      exists (string_of_list_ascii l0). split.
      * rewrite Hl0. unfold nl_str.
        rewrite <- (string_of_list_ascii_of_string
                      (string_of_list_ascii l0 ++ String newline "")).
        rewrite list_ascii_snoc, list_ascii_of_string_of_list_ascii.
        reflexivity.
      * unfold digits_only. rewrite list_ascii_of_string_of_list_ascii.
        destruct l0 as [|c0 l0]; [congruence|].
        inversion Hl0; subst c0. rewrite Hminus. exact Hd.
  - intros [H|[s0 [-> H]]]; [exact (digits_only_matches _ H)|].
    unfold digits_only in H. unfold re_match_int, nl_str.
    rewrite list_ascii_snoc.
    destruct (list_ascii_of_string s0) as [|c l]; [discriminate|].
    cbn [app]. destruct (Ascii.eqb c "-"%char).
    + destruct l as [|c' l']; [discriminate|]. cbn [app forallb] in *.
      apply andb_prop in H. destruct H as [-> H]. cbn [andb].
      apply at_dollar_skip_digits. eauto.
    + cbn [forallb] in H.
      apply andb_prop in H. destruct H as [-> H]. cbn [andb].
      apply at_dollar_skip_digits. eauto.
Qed.

(** ** Amounts of reported fields *)


Lemma field_text_lookup (d : pydict) (code s : string) :
  field_text d code = Some s ->
  exists fd, lookup code d = Some (PDict fd)
             /\ lookup "value" fd = Some (PStr s).
Proof.
  unfold field_text. destruct (lookup code d) as [[| | | | |l|fd]|];
    try discriminate.
  destruct (lookup "value" fd) as [[| | | |s'| |]|] eqn:Hv; try discriminate.
  intros H. inversion H; subst. eauto.
Qed.







Lemma amount_unparsable (d : pydict) (code s : string) :
  field_text d code = Some s -> (s =? "") = false ->
  py_int_of_str s = None ->
  amount d code = Raise (ValueError (int_error_text s)).
Proof.
  intros Ht Hs Hp. destruct (field_text_lookup _ _ _ Ht) as [fd [Hl Hv]].
  unfold amount. rewrite Hl. cbn [value_or]. rewrite Hv.
  cbn [py_truthy]. rewrite Hs. cbn [negb].
  exact (py_int_of_str_error _ Hp).
Qed.

Lemma amount_plain (d : pydict) (code : string) :
  fields_are_dicts d = true -> plain_values d = true ->
  (exists z, amount d code = Ok z)
  \/ (exists s, field_text d code = Some s /\ py_int_of_str s = None
                /\ amount d code = Raise (ValueError (int_error_text s))).
Proof.
  intros Hd Hp. unfold amount, field_text.
  destruct (lookup code d) as [f|] eqn:Hl; [|left; eauto].
  pose proof (lookup_forallb (fun x => plain_value (value_or x PNone))
                _ _ _ Hp Hl) as Hplain.
  destruct (lookup_is_dict _ _ _ Hd Hl) as [fd ->].
  cbn [value_or] in *.
  destruct (lookup "value" fd) as [x|]; [|left; exists 0%Z; reflexivity].
  destruct x as [|b|z|fl|s|l|d']; try discriminate Hplain;
    cbn [py_truthy].
  - left; eauto.
  - left. destruct b; cbn [py_int]; eauto.
  - left. destruct (negb _); cbn [py_int]; eauto.
  - destruct (negb (s =? "")); [|left; eauto].
    destruct (py_int_of_str s) as [z|] eqn:Hs.
    + left. exists z. exact (py_int_of_str_ok _ _ Hs).
    + right. exists s. rewrite (py_int_of_str_error _ Hs). auto.
Qed.

Lemma sized_values_plain (d : pydict) :
  sized_values d = true -> plain_values d = true.
Proof.
  unfold sized_values, plain_values. intros H.
  rewrite forallb_forall in *. intros kv Hin. specialize (H kv Hin).
  destruct (value_or (snd kv) PNone); try discriminate H; reflexivity.
Qed.

(** When a summed field holds a string that [int()] rejects, the block
    ends at the first summed field that does, with its [ValueError]. *)
Lemma arithmetic_value_error (d : pydict) (code s : string) :
  fields_are_dicts d = true -> plain_values d = true ->
  In code summed_fields -> field_text d code = Some s ->
  (s =? "") = false -> py_int_of_str s = None ->
  exists before code' after s',
    summed_fields = (before ++ code' :: after)%list
    /\ (forall c, In c before -> exists z, amount d c = Ok z)
    /\ field_text d code' = Some s'
    /\ py_int_of_str s' = None
    /\ arithmetic d = Raise (ValueError (int_error_text s')).
Proof.
  intros Hd Hp Hin Ht Hs Hn.
  pose proof (amount_unparsable _ _ _ Ht Hs Hn) as Hbad.
  unfold arithmetic, summed_fields in *.
  destruct (amount_plain d "010" Hd Hp) as [[a Ha]|[s1 [H1 [H2 Ha]]]];
    rewrite Ha; cbn [bind];
    [|exists [], "010", ["020"; "030"; "040"; "070"], s1;
      repeat split; auto; intros c0 []].
  destruct (amount_plain d "020" Hd Hp) as [[b Hb]|[s1 [H1 [H2 Hb]]]];
    rewrite Hb; cbn [bind];
    [|exists ["010"], "020", ["030"; "040"; "070"], s1;
      repeat split; auto; cbn [In]; intros c0 [<-|[]]; eauto].
  destruct (amount_plain d "030" Hd Hp) as [[c Hc]|[s1 [H1 [H2 Hc]]]];
    rewrite Hc; cbn [bind];
    [|exists ["010"; "020"], "030", ["040"; "070"], s1;
      repeat split; auto; cbn [In]; intros c0 [<-|[<-|[]]]; eauto].
  destruct (amount_plain d "040" Hd Hp) as [[e He]|[s1 [H1 [H2 He]]]];
    rewrite He; cbn [bind];
    [|exists ["010"; "020"; "030"], "040", ["070"], s1;
      repeat split; auto; cbn [In]; intros c0 [<-|[<-|[<-|[]]]]; eauto].
  destruct (amount_plain d "070" Hd Hp) as [[x Hx]|[s1 [H1 [H2 Hx]]]];
    rewrite Hx; cbn [bind];
    [|exists ["010"; "020"; "030"; "040"], "070", [], s1;
      repeat split; auto; cbn [In];
      intros c0 [<-|[<-|[<-|[<-|[]]]]]; eauto].
  exfalso. cbn [In] in Hin.
  destruct Hin as [<-|[<-|[<-|[<-|[<-|[]]]]]]; congruence.
Qed.

(** ** Documents of the wrong shape *)





(** ** Which exceptions leave the validator *)

Lemma for_each_raises {A S : Type} (P : exn -> Prop) (xs : list A)
    (body : A -> S -> res S) (s : S) (e : exn) :
  (forall x s' e', body x s' = Raise e' -> P e') ->
  for_each xs body s = Raise e -> P e.
Proof.
  intros Hbody. revert s. induction xs as [|x xs IH]; intros s H;
    cbn [for_each] in H; [discriminate|].
  destruct (body x s) as [s'|e'] eqn:Hb; cbn [bind] in H.
  - eauto.
  - inversion H; subst. eauto.
Qed.

Lemma check_required_field_raises (llm_data : pyval) (code : string)
    (st : findings) (e : exn) :
  Engine.check_required_field llm_data code st = Raise e ->
  shape_error e = true.
Proof.
  unfold Engine.check_required_field.
  destruct llm_data as [|b|z|fl|s|l|top]; cbn [py_get bind];
    try (intros H; inversion H; reflexivity).
  cbn [py_getitem].
  destruct (lookup "data" top) as [x|]; cbn [py_contains lookup bind negb];
    [|discriminate].
  destruct x as [|b|z|fl|s|l|d]; cbn [py_contains py_getitem bind];
    try (intros H; inversion H; reflexivity).
  - destruct (is_substring code s); cbn [negb bind]; intros H;
      inversion H; reflexivity.
  - destruct (existsb _ l); cbn [negb bind]; intros H;
      inversion H; reflexivity.
  - destruct (lookup code d) as [f|]; cbn [negb bind]; [|discriminate].
    destruct f as [|b|z|fl|s|l|fd]; cbn [py_get bind];
      try (intros H; inversion H; reflexivity).
    case_if; discriminate.
Qed.

Lemma check_data_type_raises (item : string * pyval) (warns : list string)
    (e : exn) :
  Engine.check_data_type item warns = Raise e -> shape_error e = true.
Proof.
  unfold Engine.check_data_type.
  destruct (snd item) as [|b|z|fl|s|l|fd]; cbn [py_get bind];
    try (intros H; inversion H; reflexivity).
  case_if; discriminate.
Qed.

Lemma py_int_raises (x : pyval) (e : exn) :
  py_int x = Raise e -> escapes e = true \/ exists m, e = ValueError m.
Proof.
  destruct x as [|b|z|fl|s|l|d]; cbn [py_int];
    try (intros H; inversion H; auto; fail).
  - destruct (float_int fl); intros H; inversion H; eauto.
  - destruct (read_int s); intros H; inversion H; eauto.
Qed.

Lemma add_amount_raises (data : pyval) (code : string) (total : Z)
    (e : exn) :
  Engine.add_amount data code total = Raise e ->
  escapes e = true \/ exists m, e = ValueError m.
Proof.
  unfold Engine.add_amount.
  destruct data as [|b|z|fl|s|l|d]; cbn [py_contains py_getitem bind];
    try (intros H; inversion H; auto; fail).
  - destruct (is_substring code s); cbn [bind]; intros H; inversion H; auto.
  - destruct (existsb _ l); cbn [bind]; intros H; inversion H; auto.
  - destruct (lookup code d) as [f|]; cbn [bind]; [|discriminate].
    destruct f as [|b|z|fl|s|l|fd]; cbn [py_get bind];
      try (intros H; inversion H; auto; fail).
    case_if; [|discriminate].
    destruct (py_int _) as [n|e'] eqn:Hi; cbn [bind]; [discriminate|].
    intros H; inversion H; subst. exact (py_int_raises _ _ Hi).
Qed.

Lemma py_format_grouped_raises (z : Z) (e : exn) :
  py_format_grouped z = Raise e -> exists m, e = ValueError m.
Proof.
  unfold py_format_grouped. destruct (fits_str_digits z); [discriminate|].
  intros H. inversion H. eauto.
Qed.

Lemma cet1_checks_raises (llm_data : pyval) (errs : list string) (e : exn) :
  snd (Engine.cet1_checks llm_data errs) = Raise e ->
  escapes e = true \/ exists m, e = ValueError m.
Proof.
  unfold Engine.cet1_checks. intros H.
  destruct (py_get llm_data "data" (PDict [])) as [data|e'] eqn:Hg;
    cbn [bind snd] in H.
  2:{ inversion H; subst. destruct llm_data; inversion Hg; auto. }
  destruct (for_each _ (Engine.add_amount data) 0%Z) as [a|e'] eqn:Ha;
    cbn [bind snd] in H.
  2:{ inversion H; subst.
      refine (for_each_raises
                (fun e0 => escapes e0 = true \/ exists m, e0 = ValueError m)
                _ _ _ _ _ Ha).
      intros x s' e'. apply add_amount_raises. }
  destruct (for_each ["070"] (Engine.add_amount data) 0%Z) as [x|e'] eqn:Hx;
    cbn [bind snd] in H.
  2:{ inversion H; subst.
      refine (for_each_raises
                (fun e0 => escapes e0 = true \/ exists m, e0 = ValueError m)
                _ _ _ _ _ Hx).
      intros y s' e'. apply add_amount_raises. }
  destruct (py_get data "100" (PDict [])) as [f|e'] eqn:Hf;
    cbn [bind snd] in H.
  2:{ inversion H; subst. destruct data; inversion Hf; auto. }
  destruct (py_get f "value" (PStr "0")) as [s|e'] eqn:Hs;
    cbn [bind snd] in H.
  2:{ inversion H; subst. destruct f; inversion Hs; auto. }
  assert (Hfmt : forall r : Z,
             snd (let mismatch :=
                    if negb (a - x =? r)%Z then
                      match (calculated <- py_format_grouped (a - x)%Z ;;
                             reported <- py_format_grouped r ;;
                             Ok ("CET1 calculation mismatch: Calculated "
                                   ++ calculated ++ " vs Reported "
                                   ++ reported)) with
                      | Ok message => (push errs message, Ok tt)
                      | Raise e0 => (errs, Raise e0)
                      end
                    else (errs, Ok tt) in
                  match snd mismatch with
                  | Raise e0 => mismatch
                  | Ok _ =>
                      if (r <? 0)%Z then
                        match py_format_grouped r with
                        | Ok reported =>
                            (push (fst mismatch)
                               ("CET1 is negative: " ++ reported), Ok tt)
                        | Raise e0 => (fst mismatch, Raise e0)
                        end
                      else mismatch
                  end) = Raise e ->
             exists m, e = ValueError m).
  { intros r. cbv zeta. unfold py_format_grouped.
    destruct (negb _), (fits_str_digits (a - x)), (fits_str_digits r),
      (r <? 0)%Z; cbn [bind fst snd]; intros H'; inversion H'; eauto. }
  destruct (py_truthy s).
  - destruct (py_int s) as [r|e'] eqn:Hi; cbn [bind snd] in H.
    + right. exact (Hfmt r H).
    + inversion H; subst. exact (py_int_raises _ _ Hi).
  - cbn [bind snd] in H. right. exact (Hfmt 0%Z H).
Qed.

(** An exception that leaves [validate_response] is an [AttributeError], a
    [TypeError] or an [OverflowError]: a [ValueError] of [int()] never
    does. *)
Lemma validate_response_raises (llm_data : pyval) (e : exn) :
  Engine.validate_response llm_data = Raise e -> escapes e = true.
Proof.
  unfold Engine.validate_response. intros H.
  assert (Hs : forall e', shape_error e' = true -> escapes e' = true)
    by (intros []; auto).
  destruct (for_each Engine.required_fields _ _) as [st|e'] eqn:H1;
    cbn [bind] in H.
  2:{ inversion H; subst. apply Hs.
      refine (for_each_raises (fun e0 => shape_error e0 = true) _ _ _ _ _ H1).
      intros x s' e'. apply check_required_field_raises. }
  destruct (py_get llm_data "data" (PDict [])) as [data|e'] eqn:Hg;
    cbn [bind] in H.
  2:{ inversion H; subst. destruct llm_data; inversion Hg; auto. }
  destruct (py_items data) as [items|e'] eqn:Hi; cbn [bind] in H.
  2:{ inversion H; subst. destruct data; inversion Hi; auto. }
  destruct (for_each items Engine.check_data_type (snd st)) as [w|e'] eqn:H2;
    cbn [bind] in H.
  2:{ inversion H; subst. apply Hs.
      refine (for_each_raises (fun e0 => shape_error e0 = true) _ _ _ _ _ H2).
      intros x s' e'. apply check_data_type_raises. }
  destruct (snd (Engine.cet1_checks llm_data (fst st))) as [u|e'] eqn:H3.
  - discriminate H.
  - destruct (cet1_checks_raises _ _ _ H3) as [He|[m ->]].
    + destruct e'; try discriminate He; cbn [bind] in H; inversion H;
        reflexivity.
    + discriminate H.
Qed.

(** On a document of the right shape whose values are null, strings,
    integers or booleans, [validate_response] returns a verdict. *)
Lemma validate_response_returns (llm_data : pyval) (d : pydict) :
  template_data llm_data = Some d -> fields_are_dicts d = true ->
  plain_values d = true ->
  exists v, Engine.validate_response llm_data = Ok v.
Proof.
  intros Ht Hd Hp. rewrite (validate_response_outcome _ _ Ht Hd).
  unfold outcome, arithmetic.
  destruct (amount_plain d "010" Hd Hp) as [[a ->]|[s [_ [_ ->]]]];
    cbn [bind]; [|eauto].
  destruct (amount_plain d "020" Hd Hp) as [[b ->]|[s [_ [_ ->]]]];
    cbn [bind]; [|eauto].
  destruct (amount_plain d "030" Hd Hp) as [[c ->]|[s [_ [_ ->]]]];
    cbn [bind]; [|eauto].
  destruct (amount_plain d "040" Hd Hp) as [[e ->]|[s [_ [_ ->]]]];
    cbn [bind]; [|eauto].
  destruct (amount_plain d "070" Hd Hp) as [[x ->]|[s [_ [_ ->]]]];
    cbn [bind]; [|eauto].
  destruct (amount_plain d "100" Hd Hp) as [[r ->]|[s [_ [_ ->]]]];
    cbn [bind]; [|eauto].
  destruct (formatted_errors (a + b + c + e - x) r) as [found|e'] eqn:Hf;
    [eauto|].
  rewrite (formatted_errors_raises _ _ _ Hf). eauto.
Qed.

(** ** Grouping keeps the digits *)

Lemma uint_no_comma (u : Decimal.uint) :
  filter not_comma (list_ascii_of_string (NilEmpty.string_of_uint u))
  = list_ascii_of_string (NilEmpty.string_of_uint u).
Proof.
  induction u; cbn [NilEmpty.string_of_uint list_ascii_of_string filter];
    try reflexivity;
    match goal with
    | |- context [not_comma ?c] => change (not_comma c) with true
    end; rewrite IHu; reflexivity.
Qed.

Lemma group3_filter (l : list ascii) (k : nat) :
  filter not_comma (group3 l k) = filter not_comma l.
Proof.
  revert k. induction l as [|c l IH]; intros k; [reflexivity|].
  cbn [group3]. destruct (k =? 3)%nat; cbn [filter].
  - change (not_comma ","%char) with false. cbn iota.
    rewrite IH. reflexivity.
  - rewrite IH. reflexivity.
Qed.

Lemma grouped_body (digits : list ascii) :
  filter not_comma digits = digits ->
  strip_commas (string_of_list_ascii (rev (group3 (rev digits) 0)))
  = string_of_list_ascii digits.
Proof.
  intros H. unfold strip_commas.
  rewrite list_ascii_of_string_of_list_ascii, filter_rev, group3_filter,
    filter_rev, rev_involutive, H. reflexivity.
Qed.

(** Without its commas, a grouped number is the decimal numeral. *)
Lemma format_grouped_digits (z : Z) :
  strip_commas (format_grouped z) = decimal z.
Proof.
  destruct z as [|p|p]; [reflexivity| |].
  - unfold format_grouped. change (Z.pos p <? 0)%Z with false. cbn iota.
    rewrite grouped_body by apply uint_no_comma.
    apply string_of_list_ascii_of_string.
  - unfold format_grouped. change (Z.neg p <? 0)%Z with true. cbn iota.
    change (decimal (Z.abs (Z.neg p)))
      with (NilEmpty.string_of_uint (Pos.to_uint p)).
    change (decimal (Z.neg p))
      with (String "-" (NilEmpty.string_of_uint (Pos.to_uint p))).
    pose proof (grouped_body _ (uint_no_comma (Pos.to_uint p))) as H.
    rewrite string_of_list_ascii_of_string in H.
    unfold strip_commas in *. cbn [append list_ascii_of_string filter].
    change (not_comma "-"%char) with true. cbn iota.
    cbn [string_of_list_ascii]. rewrite H. reflexivity.
Qed.

(** ** The properties of the specification *)

(** C1, as stated, fails: field 010 holds "abc", the totals with 0 in its
    place do not reconcile, and the verdict is valid with no error: the
    mismatch check has not run. *)
Lemma C1_counterexample :
  field_text unparsable_data "010" = Some "abc"
  /\ py_int_of_str "abc" = None
  /\ reconciles_with_zero_substitution unparsable_data = false
  /\ Engine.validate_response (template unparsable_data)
     = Ok {| errors := [];
             warnings :=
               ["Non-numeric value in field 010: abc";
                "Calculation error: invalid literal for int() with base 10: 'abc'"];
             is_valid := true |}.
Proof.
  repeat split.
Qed.

(** C1, amended.  On a template whose values are null, strings, booleans
    or integers of at most 4300 digits, when a reported component or
    deduction field (010, 020, 030, 040, 070) holds a non-empty string that
    [int()] rejects, no exception leaves [validate_response].  The block of
    the sums ends at the first field, in the order 010, 020, 030, 040, 070,
    whose string [int()] rejects: the fields before it are summed, and the
    [ValueError] of this one is caught and recorded as the last warning,
    "Calculation error: " followed by the message of [int()] for this
    string ("invalid literal for int() with base 10: <repr of the string>",
    or the message of the limit on digits).  The mismatch check and the sign
    check are skipped, so the errors are those of the completeness pass
    alone, and [is_valid] says whether the four required fields are all
    reported. *)
Theorem C1_parse_failure_skips_checks (llm_data : pyval) (d : pydict)
    (code s : string) :
  template_data llm_data = Some d -> fields_are_dicts d = true ->
  sized_values d = true ->
  In code summed_fields -> field_text d code = Some s ->
  (s =? "") = false -> py_int_of_str s = None ->
  exists v before code' after s',
    Engine.validate_response llm_data = Ok v
    /\ summed_fields = (before ++ code' :: after)%list
    /\ (forall c, In c before -> exists z, amount d c = Ok z)
    /\ field_text d code' = Some s'
    /\ py_int_of_str s' = None
    /\ errors v = missing_errors d Engine.required_fields
    /\ warnings v
       = (empty_warnings d Engine.required_fields ++ type_warnings d
          ++ [("Calculation error: " ++ int_error_text s')%string])%list
    /\ is_valid v = forallb (fun c => has_key c d) Engine.required_fields.
Proof.
  intros Ht Hd Hp Hin Hf Hs Hn.
  destruct (arithmetic_value_error _ _ _ Hd (sized_values_plain _ Hp)
              Hin Hf Hs Hn)
    as [before [code' [after [s' [Hsplit [Hbefore [Hf' [Hn' Ha]]]]]]]].
  rewrite (validate_response_outcome _ _ Ht Hd). unfold outcome. rewrite Ha.
  eexists. exists before, code', after, s'. split; [reflexivity|].
  cbn [verdict_of errors warnings is_valid].
  rewrite no_missing_errors, <- app_assoc. auto 10.
Qed.

Lemma C1_witness :
  exists v before code' after s',
    Engine.validate_response (template unparsable_data) = Ok v
    /\ summed_fields = (before ++ code' :: after)%list
    /\ (forall c, In c before -> exists z, amount unparsable_data c = Ok z)
    /\ field_text unparsable_data code' = Some s'
    /\ py_int_of_str s' = None
    /\ errors v = missing_errors unparsable_data Engine.required_fields
    /\ warnings v
       = (empty_warnings unparsable_data Engine.required_fields
          ++ type_warnings unparsable_data
          ++ [("Calculation error: " ++ int_error_text s')%string])%list
    /\ is_valid v
       = forallb (fun c => has_key c unparsable_data) Engine.required_fields.
Proof.
  apply (C1_parse_failure_skips_checks (template unparsable_data)
           unparsable_data "010" "abc"); try reflexivity.
  cbn. auto.
Defined.










(** C5.  On a document that validation accepts for a verdict: a required
    code that the data mapping lacks has exactly one "Missing required
    field" error; such an error names only a required code that is
    lacking; a required code whose value is empty has exactly one "Empty
    value" warning, no missing-field error, and no numeric-format warning. *)
Theorem C5_required_fields (llm_data : pyval) (d : pydict) (v : verdict) :
  template_data llm_data = Some d ->
  Engine.validate_response llm_data = Ok v ->
  (forall code, In code Engine.required_fields -> lookup code d = None ->
     count_occ string_dec (errors v) (missing_error code) = 1%nat)
  /\ (forall code, In (missing_error code) (errors v) ->
        In code Engine.required_fields /\ lookup code d = None)
  /\ (forall code f, In code Engine.required_fields ->
        lookup code d = Some f -> py_truthy (value_or f PNone) = false ->
        count_occ string_dec (warnings v) (empty_warning code) = 1%nat
        /\ ~ In (missing_error code) (errors v)
        /\ forall warns, Engine.check_data_type (code, f) warns = Ok warns).
Proof.
  intros Ht H.
  destruct (validate_response_ok_shape _ _ H) as [d' [Ht' Hd]].
  rewrite Ht in Ht'. inversion Ht'; subst d'. clear Ht'.
  rewrite (validate_response_outcome _ _ Ht Hd) in H.
  destruct (outcome_ok _ _ H) as [found [extra [He [Hw [_ Hcase]]]]].
  assert (Hfound : forall code, ~ In (missing_error code) found).
  { intros code. destruct Hcase as [[a [r [_ [-> _]]]]|[m [_ [-> _]]]].
    - apply total_errors_not_missing.
    - intros []. }
  assert (Hextra : forall code, ~ In (empty_warning code) extra).
  { intros code. destruct Hcase as [[a [r [_ [_ ->]]]]|[m [_ [_ ->]]]].
    - intros [].
    - intros [Hm|[]]. discriminate Hm. }
  assert (Hmiss : forall code, In (missing_error code) (errors v) ->
                    In code Engine.required_fields /\ lookup code d = None).
  { intros code Hin. rewrite He in Hin. apply in_app_or in Hin.
    destruct Hin as [Hin|Hin]; [|exfalso; exact (Hfound _ Hin)].
    apply in_missing_errors in Hin. destruct Hin as [Hin Hk].
    split; [exact Hin|]. unfold has_key in Hk.
    destruct (lookup code d); [discriminate|reflexivity]. }
  split; [|split].
  - intros code Hin Hl. rewrite He, count_occ_app.
    rewrite (count_missing_errors _ _ _ required_fields_NoDup Hin)
      by (unfold has_key; rewrite Hl; reflexivity).
    rewrite (proj1 (count_occ_not_In string_dec _ _) (Hfound code)).
    reflexivity.
  - exact Hmiss.
  - intros code f Hin Hl Hf. split; [|split].
    + rewrite Hw, !count_occ_app.
      rewrite (count_empty_warnings _ _ _ required_fields_NoDup Hin)
        by (unfold is_empty; rewrite Hl, Hf; reflexivity).
      rewrite (proj1 (count_occ_not_In string_dec _ _)
                 (type_warnings_not_empty_warning d code)).
      rewrite (proj1 (count_occ_not_In string_dec _ _) (Hextra code)).
      reflexivity.
    + intros Hm. apply Hmiss in Hm. destruct Hm as [_ Hm]. congruence.
    + intros warns. destruct (lookup_is_dict _ _ _ Hd Hl) as [fd ->].
      unfold Engine.check_data_type. cbn [snd fst py_get bind].
      cbn [value_or] in Hf.
      destruct (lookup "value" fd) as [x|]; [rewrite Hf|]; reflexivity.
Qed.

Lemma C5_witness :
  Engine.validate_response (template incomplete_data) = Ok incomplete_verdict
  /\ count_occ string_dec (errors incomplete_verdict) (missing_error "030")
     = 1%nat
  /\ count_occ string_dec (warnings incomplete_verdict) (empty_warning "010")
     = 1%nat.
Proof.
  pose proof (C5_required_fields (template incomplete_data) incomplete_data
                incomplete_verdict eq_refl eq_refl) as [Hmiss [_ Hempty]].
  split; [reflexivity|]. split.
  - apply Hmiss; [cbn; auto|reflexivity].
  - apply (Hempty "010" (snd (field "010" ""))); [cbn; auto|reflexivity..].
Defined.

(** C6.  The verdict that [validate_response] returns has [is_valid] equal
    to "[errors] is empty": it is true exactly when there is no error, and
    two verdicts with the same errors have the same [is_valid], whatever
    their warnings are. *)
Theorem C6_is_valid_iff_no_errors (llm_data : pyval) (v : verdict) :
  Engine.validate_response llm_data = Ok v ->
  (is_valid v = true <-> errors v = [])
  /\ (forall llm_data' v',
        Engine.validate_response llm_data' = Ok v' ->
        errors v' = errors v -> is_valid v' = is_valid v).
Proof.
  intros H. pose proof (validate_response_is_valid _ _ H) as Hv. split.
  - rewrite Hv. destruct (errors v); cbn; split; intros; congruence.
  - intros llm_data' v' H' He.
    rewrite Hv, (validate_response_is_valid _ _ H'), He. reflexivity.
Qed.

Lemma C6_witness :
  Engine.validate_response mismatch_template = Ok mismatch_verdict
  /\ (is_valid mismatch_verdict = true <-> errors mismatch_verdict = []).
Proof.
  split; [reflexivity|].
  exact (proj1 (C6_is_valid_iff_no_errors mismatch_template mismatch_verdict
                  eq_refl)).
Defined.




(** C8.  The value "12" followed by a newline is not of the pattern "an
    optional minus sign followed by decimal digits only", yet the
    validator's pattern matches it, and validation emits no "Non-numeric
    value" warning for it. *)
Theorem C8_trailing_newline_not_warned :
  field_text newline_data "010" = Some ("12" ++ nl_str)
  /\ digits_only ("12" ++ nl_str) = false
  /\ re_match_int ("12" ++ nl_str) = true
  /\ Engine.validate_response (template newline_data)
     = Ok {| errors := []; warnings := []; is_valid := true |}.
Proof.
  repeat split.
Qed.

(** C9.  A required field whose value is the number 0 is treated as empty:
    validation warns "Empty value for field: <code>", the numeric-format
    pass leaves it alone, and it adds nothing to a sum.  The same field
    holding the string "0" gets neither that warning nor a numeric-format
    warning, and adds nothing to a sum either. *)
Theorem C9_zero_number_is_empty (llm_data : pyval) (d fd : pydict)
    (code : string) (v : verdict) :
  template_data llm_data = Some d ->
  In code Engine.required_fields ->
  lookup code d = Some (PDict fd) ->
  Engine.validate_response llm_data = Ok v ->
  (lookup "value" fd = Some (PInt 0) ->
     In ("Empty value for field: " ++ code) (warnings v)
     /\ (forall warns,
           Engine.check_data_type (code, PDict fd) warns = Ok warns)
     /\ (forall total, Engine.add_amount (PDict d) code total = Ok total)
     /\ amount d code = Ok 0%Z)
  /\ (lookup "value" fd = Some (PStr "0") ->
        ~ In ("Empty value for field: " ++ code) (warnings v)
        /\ (forall warns,
              Engine.check_data_type (code, PDict fd) warns = Ok warns)
        /\ (forall total, Engine.add_amount (PDict d) code total = Ok total)
        /\ amount d code = Ok 0%Z).
Proof.
  intros Ht Hin Hl H.
  destruct (validate_response_ok_shape _ _ H) as [d' [Ht' Hd]].
  rewrite Ht in Ht'. inversion Ht'; subst d'. clear Ht'.
  rewrite (validate_response_outcome _ _ Ht Hd) in H.
  destruct (outcome_ok _ _ H) as [found [extra [_ [Hw [_ Hcase]]]]].
  fold (empty_warning code).
  split; intros Hv.
  - split; [|split; [|split]].
    + rewrite Hw. apply in_or_app. left. apply in_empty_warnings.
      split; [exact Hin|]. unfold is_empty. rewrite Hl. cbn [value_or].
      rewrite Hv. reflexivity.
    + intros warns. unfold Engine.check_data_type.
      cbn [snd fst py_get bind]. rewrite Hv. reflexivity.
    + intros total. unfold Engine.add_amount.
      cbn [py_contains py_getitem bind]. rewrite Hl.
      cbn [bind py_get]. rewrite Hv. reflexivity.
    + unfold amount. rewrite Hl. cbn [value_or]. rewrite Hv. reflexivity.
  - split; [|split; [|split]].
    + rewrite Hw. intros Hi. apply in_app_or in Hi.
      destruct Hi as [Hi|Hi].
      * apply in_empty_warnings in Hi. destruct Hi as [_ Hi].
        unfold is_empty in Hi. rewrite Hl in Hi. cbn [value_or] in Hi.
        rewrite Hv in Hi. discriminate Hi.
      * apply in_app_or in Hi. destruct Hi as [Hi|Hi].
        -- exact (type_warnings_not_empty_warning _ _ Hi).
        -- destruct Hcase as [[a [r [_ [_ ->]]]]|[m [_ [_ ->]]]].
           ++ destruct Hi.
           ++ destruct Hi as [Hi|[]]. discriminate Hi.
    + intros warns. unfold Engine.check_data_type.
      cbn [snd fst py_get bind]. rewrite Hv. reflexivity.
    + intros total. unfold Engine.add_amount.
      cbn [py_contains py_getitem bind]. rewrite Hl.
      cbn [bind py_get]. rewrite Hv.
      change (py_truthy (PStr "0")) with true.
      change (py_int (PStr "0")) with (@Ok Z 0%Z). cbn [bind].
      rewrite Z.add_0_r. reflexivity.
    + unfold amount. rewrite Hl. cbn [value_or]. rewrite Hv. reflexivity.
Qed.

Lemma C9_witness :
  Engine.validate_response (template zero_number_data)
  = Ok {| errors := [];
          warnings := ["Empty value for field: 010"];
          is_valid := true |}
  /\ In ("Empty value for field: " ++ "010")
        ["Empty value for field: 010"]
  /\ amount zero_number_data "010" = Ok 0%Z.
Proof.
  pose proof (C9_zero_number_is_empty (template zero_number_data)
                zero_number_data [("value", PInt 0)] "010"
                {| errors := [];
                   warnings := ["Empty value for field: 010"];
                   is_valid := true |}
                eq_refl (or_introl eq_refl) eq_refl eq_refl) as [Hzero _].
  split; [reflexivity|].
  destruct (Hzero eq_refl) as [Hw [_ [_ Ha]]]. split; [exact Hw|exact Ha].
Defined.

(** C10.  The validator of main.py and the validator of corep_engine.py
    give the same result on every input: the same exception, or the same
    verdict (errors, warnings in the same order, and [is_valid]). *)
Theorem C10_validators_agree (llm_data : pyval) :
  Assistant.validate_response llm_data = Engine.validate_response llm_data.
Proof.
  reflexivity.
Qed.

(** ** Further properties of [validate_response] *)

Lemma lookup_In (d : pydict) (code : string) (f : pyval) :
  lookup code d = Some f -> In (code, f) d.
Proof.
  induction d as [|[k x] d IH]; cbn [lookup]; [discriminate|].
  destruct (k =? code) eqn:Hk.
  - apply String.eqb_eq in Hk. intros H. inversion H; subst. left; reflexivity.
  - intros H. right. auto.
Qed.

Lemma missing_errors_length (d : pydict) :
  (List.length (missing_errors d Engine.required_fields)
   <= if has_key "100" d then 3 else 4)%nat.
Proof.
  unfold missing_errors, Engine.required_fields, is_missing. cbn [filter].
  destruct (has_key "010" d), (has_key "020" d), (has_key "030" d),
    (has_key "100" d); cbn; lia.
Qed.

Lemma amount_absent (d : pydict) (code : string) :
  has_key code d = false -> amount d code = Ok 0%Z.
Proof.
  unfold has_key, amount. destruct (lookup code d); [discriminate|reflexivity].
Qed.

(** X1.  On a document whose integers have at most 4300 digits, as every
    document that [json.loads] returns, an exception that leaves
    [validate_response] is an [AttributeError], a [TypeError] or an
    [OverflowError]: a [ValueError] of [int()] or of the format of a total
    and a [KeyError] of a subscription never leave it. *)
Theorem X1_exceptions_that_leave (llm_data : pyval) (e : exn) :
  ints_fit llm_data = true ->
  Engine.validate_response llm_data = Raise e ->
  e = AttributeError \/ e = TypeError \/ e = OverflowError.
Proof.
  intros _ H. apply validate_response_raises in H.
  destruct e; try discriminate H; auto.
Qed.

Lemma X1_witness :
  Engine.validate_response
    (template [("010", PDict [("value", PList [PInt 1])])])
  = Raise TypeError
  /\ (TypeError = AttributeError \/ TypeError = TypeError
      \/ TypeError = OverflowError).
Proof.
  split; [reflexivity|].
  apply (X1_exceptions_that_leave
           (template [("010", PDict [("value", PList [PInt 1])])]));
    reflexivity.
Defined.

(** X2.  On a mapping whose data is a mapping of mappings with values that
    are null, strings, booleans or integers of at most 4300 digits,
    [validate_response] returns a verdict: whatever the strings are, and
    however many digits the totals have, nothing is raised. *)
Theorem X2_sized_documents_get_a_verdict (llm_data : pyval) (d : pydict) :
  template_data llm_data = Some d -> fields_are_dicts d = true ->
  sized_values d = true ->
  exists v, Engine.validate_response llm_data = Ok v.
Proof.
  intros Ht Hd Hs.
  exact (validate_response_returns _ _ Ht Hd (sized_values_plain _ Hs)).
Qed.

Lemma X2_witness :
  exists v, Engine.validate_response (template unparsable_data) = Ok v.
Proof.
  apply (X2_sized_documents_get_a_verdict (template unparsable_data)
           unparsable_data); reflexivity.
Defined.

(** X3.  A mapping without a "data" key is validated as an empty template:
    the verdict has the four missing-field errors in the order 010, 020,
    030, 100, no warning, and is not valid. *)
Theorem X3_no_data_key (top : pydict) :
  lookup "data" top = None ->
  Engine.validate_response (PDict top)
  = Ok {| errors := ["Missing required field: 010";
                     "Missing required field: 020";
                     "Missing required field: 030";
                     "Missing required field: 100"];
          warnings := [];
          is_valid := false |}.
Proof.
  intros H.
  rewrite (validate_response_outcome (PDict top) []); [reflexivity| |reflexivity].
  cbn [template_data]. rewrite H. reflexivity.
Qed.

Lemma X3_witness :
  Engine.validate_response (PDict [("template", PStr "C 01.00")])
  = Ok {| errors := ["Missing required field: 010";
                     "Missing required field: 020";
                     "Missing required field: 030";
                     "Missing required field: 100"];
          warnings := [];
          is_valid := false |}.
Proof.
  apply (X3_no_data_key [("template", PStr "C 01.00")]). reflexivity.
Defined.

(** X4.  The errors of a verdict are the missing-field errors, in the order
    of the required codes, followed by at most the mismatch error and then
    the negative-total error; there are never more than five of them. *)
Theorem X4_errors_order_and_bound (llm_data : pyval) (v : verdict) :
  Engine.validate_response llm_data = Ok v ->
  exists d found,
    template_data llm_data = Some d
    /\ errors v
       = (map missing_error
              (filter (fun code => negb (has_key code d))
                      Engine.required_fields) ++ found)%list
    /\ (found = []
        \/ exists calculated reported,
             found = [mismatch_error calculated reported]
             \/ found = [negative_error reported]
             \/ found = [mismatch_error calculated reported;
                         negative_error reported])
    /\ (List.length (errors v) <= 5)%nat.
Proof.
  intros H. destruct (validate_response_ok_shape _ _ H) as [d [Ht Hd]].
  rewrite (validate_response_outcome _ _ Ht Hd) in H.
  unfold outcome in H. exists d.
  pose proof (missing_errors_length d) as Hlen.
  destruct (arithmetic d) as [found|[| | | |m]] eqn:Ha; try discriminate H;
    inversion H; subst v; clear H; cbn [errors verdict_of].
  - exists found. split; [exact Ht|]. split; [reflexivity|].
    unfold arithmetic in Ha.
    destruct (amount d "010") as [a|]; [|discriminate].
    destruct (amount d "020") as [b|]; [|discriminate].
    destruct (amount d "030") as [c|]; [|discriminate].
    destruct (amount d "040") as [e|]; [|discriminate].
    destruct (amount d "070") as [x|]; [|discriminate].
    destruct (amount d "100") as [r|] eqn:Hr; [|discriminate].
    cbn [bind] in Ha. apply formatted_errors_ok in Ha. subst found.
    rewrite length_app. unfold total_errors, mismatch_error, negative_error.
    destruct (has_key "100" d) eqn:Hk.
    + destruct (negb _), (r <? 0)%Z; cbn [app List.length]; split;
        try lia;
        first [left; reflexivity
              |right; exists (a + b + c + e - x)%Z, r; auto].
    + rewrite (amount_absent _ _ Hk) in Hr. inversion Hr; subst r.
      change (0 <? 0)%Z with false.
      destruct (negb _); cbn [app List.length]; split; try lia;
        first [left; reflexivity
              |right; exists (a + b + c + e - x)%Z, 0%Z; auto].
  - exists []. rewrite app_nil_r. split; [exact Ht|]. split; [reflexivity|].
    split; [auto|]. destruct (has_key "100" d); lia.
Qed.

Lemma X4_witness :
  exists d found,
    template_data (template negative_mismatch_data) = Some d
    /\ ["CET1 calculation mismatch: Calculated -5 vs Reported -10";
        "CET1 is negative: -10"]
       = (map missing_error
              (filter (fun code => negb (has_key code d))
                      Engine.required_fields) ++ found)%list
    /\ (found = []
        \/ exists calculated reported,
             found = [mismatch_error calculated reported]
             \/ found = [negative_error reported]
             \/ found = [mismatch_error calculated reported;
                         negative_error reported])
    /\ (2 <= 5)%nat.
Proof.
  exact (X4_errors_order_and_bound (template negative_mismatch_data)
           {| errors :=
                ["CET1 calculation mismatch: Calculated -5 vs Reported -10";
                 "CET1 is negative: -10"];
              warnings := [];
              is_valid := false |} eq_refl).
Defined.





Lemma digits_only_shape (s : string) :
  digits_only s = true ->
  exists (neg : bool) ds,
    list_ascii_of_string s = ((if neg then ["-"%char] else []) ++ ds)%list
    /\ ds <> [] /\ forallb is_digit ds = true.
Proof.
  unfold digits_only.
  destruct (list_ascii_of_string s) as [|c l]; [discriminate|].
  destruct (Ascii.eqb c "-"%char) eqn:Hminus.
  - apply Ascii.eqb_eq in Hminus. subst c.
    destruct l as [|c' l]; [discriminate|]. intros H.
    exists true, (c' :: l). repeat split; [discriminate|exact H].
  - intros H. exists false, (c :: l). repeat split; [discriminate|exact H].
Qed.

(** A string of the validator's pattern: an optional minus sign, digits,
    and nothing or one newline. *)
Lemma pattern_shape (s : string) :
  re_match_int s = true ->
  exists (neg : bool) ds tail,
    list_ascii_of_string s
    = ((if neg then ["-"%char] else []) ++ ds ++ tail)%list
    /\ ds <> [] /\ forallb is_digit ds = true
    /\ (tail = [] \/ tail = [newline]).
Proof.
  intros H. apply re_match_int_spec in H. destruct H as [H|[s0 [-> H]]];
    destruct (digits_only_shape _ H) as [neg [ds [Hl [Hne Hd]]]].
  - exists neg, ds, []. rewrite app_nil_r. auto.
  - exists neg, ds, [newline]. unfold nl_str.
    rewrite list_ascii_snoc, Hl, <- app_assoc. auto.
Qed.

(** What [int()] makes of a string of the validator's pattern: it reads
    it, unless it has more digits than the limit allows. *)
Lemma pattern_reading (s : string) :
  re_match_int s = true ->
  exists z,
    read_int s = if (max_str_digits <? digit_chars s)%nat
                 then TooManyDigits (digit_chars s) else ReadInt z.
Proof.
  intros H.
  destruct (pattern_shape _ H) as [neg [ds [tail [Hl [Hne [Hd Ht]]]]]].
  destruct (scan_digits_tail ds tail 0%Z Hd Ht) as [n Hn].
  pose proof (read_int_digits neg ds tail n Hne Hd Ht Hn) as Hr.
  rewrite <- Hl, string_of_list_ascii_of_string in Hr.
  assert (Hc : digit_chars s = List.length ds).
  { unfold digit_chars. rewrite Hl, !filter_app, (filter_digits_all _ Hd).
    destruct neg; destruct Ht as [->| ->]; cbn [filter app];
      change (is_digit "-"%char) with false;
      change (is_digit newline) with false; cbn iota;
      rewrite ?app_nil_r; reflexivity. }
  rewrite Hc. eexists. exact Hr.
Qed.

(** X6.  A string that the numeric-format pattern accepts, which gets no
    "Non-numeric value" warning, is one that [int()] reads when it has at
    most 4300 digits; with more digits, [int()] raises the [ValueError] of
    the limit, which names the number of digits. *)
Theorem X6_pattern_strings_and_int (s : string) :
  re_match_int s = true ->
  if (digit_chars s <=? max_str_digits)%nat
  then exists z, py_int (PStr s) = Ok z
  else py_int (PStr s)
       = Raise (ValueError (too_many_digits_text (digit_chars s))).
Proof.
  intros H. destruct (pattern_reading _ H) as [z Hz].
  cbn [py_int]. rewrite Hz, Nat.ltb_antisym.
  destruct (digit_chars s <=? max_str_digits)%nat; cbn [negb]; eauto.
Qed.

Lemma X6_witness :
  (exists z, py_int (PStr ("-12" ++ nl_str)) = Ok z)
  /\ py_int (PStr (nines ++ "9"))
     = Raise (ValueError "Exceeds the limit (4300 digits) for integer string conversion: value has 4301 digits; use sys.set_int_max_str_digits() to increase the limit").
Proof.
  split.
  - exact (X6_pattern_strings_and_int ("-12" ++ nl_str) eq_refl).
  - exact (X6_pattern_strings_and_int (nines ++ "9") eq_refl).
Defined.

Lemma fits_small (z : Z) :
  (Z.abs z < 10)%Z -> fits_str_digits z = true.
Proof.
  intros H. unfold fits_str_digits. apply Z.ltb_lt.
  pose proof limit_power_large as Hl. revert Hl.
  generalize (10 ^ Z.of_nat max_str_digits)%Z. intros P Hl. lia.
Qed.

(** What a field adds to a sum fits the limit on digits when the values
    do. *)
Lemma amount_sized_fits (d : pydict) (code : string) (z : Z) :
  fields_are_dicts d = true -> sized_values d = true ->
  amount d code = Ok z -> fits_str_digits z = true.
Proof.
  intros Hd Hs. unfold amount.
  destruct (lookup code d) as [f|] eqn:Hl.
  2:{ intros H. inversion H. apply fits_small. reflexivity. }
  pose proof (lookup_forallb (fun x => sized_value (value_or x PNone))
                _ _ _ Hs Hl) as Hsized.
  destruct (lookup_is_dict _ _ _ Hd Hl) as [fd ->].
  cbn [value_or] in *.
  destruct (lookup "value" fd) as [x|].
  2:{ intros H. change (py_truthy (PStr "0")) with true in H. cbn iota in H.
      apply (read_int_fits "0"). cbn [py_int] in H.
      destruct (read_int "0"); inversion H. reflexivity. }
  destruct x as [|b|n|fl|s|l|d']; try discriminate Hsized;
    cbn [py_truthy].
  - intros H. inversion H. apply fits_small. reflexivity.
  - destruct b; cbn [py_int]; intros H; inversion H; apply fits_small;
      reflexivity.
  - destruct (negb _); cbn [py_int]; intros H; inversion H; subst;
      [exact Hsized|apply fits_small; reflexivity].
  - destruct (negb (s =? "")).
    + cbn [py_int]. destruct (read_int s) eqn:Hr; intros H; inversion H.
      subst. exact (read_int_fits _ _ Hr).
    + intros H. inversion H. apply fits_small. reflexivity.
Qed.

Lemma formatted_errors_oversized (calculated reported : Z) (e : exn) :
  formatted_errors calculated reported = Raise e ->
  fits_str_digits reported = true ->
  fits_str_digits calculated = false.
Proof.
  unfold formatted_errors. intros H Hr. rewrite Hr in H.
  destruct (fits_str_digits calculated); [|reflexivity].
  cbn [andb] in H. destruct (negb _), (reported <? 0)%Z; discriminate H.
Qed.

(** Where the [ValueError] of the block comes from: [int()] of the string
    of one of the six fields, or the format of the totals, once the six
    amounts are read. *)
Lemma arithmetic_raises_sources (d : pydict) (m : string) :
  fields_are_dicts d = true -> plain_values d = true ->
  arithmetic d = Raise (ValueError m) ->
  (exists code s,
     In code display_codes /\ field_text d code = Some s
     /\ py_int_of_str s = None
     /\ amount d code = Raise (ValueError (int_error_text s))
     /\ m = int_error_text s)
  \/ (exists a b c e x r,
        amount d "010" = Ok a /\ amount d "020" = Ok b
        /\ amount d "030" = Ok c /\ amount d "040" = Ok e
        /\ amount d "070" = Ok x /\ amount d "100" = Ok r
        /\ formatted_errors (a + b + c + e - x) r = Raise (ValueError m)).
Proof.
  intros Hd Hp. unfold arithmetic, display_codes.
  destruct (amount_plain d "010" Hd Hp) as [[a Ha]|[s1 [H1 [H2 Ha]]]];
    rewrite Ha; cbn [bind];
    [|intros H; inversion H; left; exists "010", s1; cbn [In]; auto 8].
  destruct (amount_plain d "020" Hd Hp) as [[b Hb]|[s1 [H1 [H2 Hb]]]];
    rewrite Hb; cbn [bind];
    [|intros H; inversion H; left; exists "020", s1; cbn [In]; auto 8].
  destruct (amount_plain d "030" Hd Hp) as [[c Hc]|[s1 [H1 [H2 Hc]]]];
    rewrite Hc; cbn [bind];
    [|intros H; inversion H; left; exists "030", s1; cbn [In]; auto 8].
  destruct (amount_plain d "040" Hd Hp) as [[e He]|[s1 [H1 [H2 He]]]];
    rewrite He; cbn [bind];
    [|intros H; inversion H; left; exists "040", s1; cbn [In]; auto 9].
  destruct (amount_plain d "070" Hd Hp) as [[x Hx]|[s1 [H1 [H2 Hx]]]];
    rewrite Hx; cbn [bind];
    [|intros H; inversion H; left; exists "070", s1; cbn [In]; auto 10].
  destruct (amount_plain d "100" Hd Hp) as [[r Hr]|[s1 [H1 [H2 Hr]]]];
    rewrite Hr; cbn [bind];
    [|intros H; inversion H; left; exists "100", s1; cbn [In]; auto 11].
  intros H. right. exists a, b, c, e, x, r. auto 10.
Qed.

Lemma type_warning_of_unparsable (d : pydict) (code s : string) :
  field_text d code = Some s ->
  amount d code = Raise (ValueError (int_error_text s)) ->
  read_int s = InvalidLiteral ->
  In ("Non-numeric value in field " ++ code ++ ": " ++ s) (type_warnings d).
Proof.
  intros Ht Ha Hn. destruct (field_text_lookup _ _ _ Ht) as [fd [Hl Hv]].
  unfold type_warnings. apply in_flat_map.
  exists (code, PDict fd). split; [exact (lookup_In _ _ _ Hl)|].
  unfold type_warning. cbn [snd fst value_or]. rewrite Hv.
  assert (Hs : py_truthy (PStr s) = true).
  { destruct s as [|c s]; [|reflexivity].
    unfold amount in Ha. rewrite Hl in Ha. cbn [value_or] in Ha.
    rewrite Hv in Ha. discriminate Ha. }
  rewrite Hs. cbn [py_str andb].
  destruct (re_match_int s) eqn:Hm.
  - destruct (pattern_reading _ Hm) as [z Hz]. rewrite Hn in Hz.
    destruct (max_str_digits <? digit_chars s)%nat; discriminate Hz.
  - left. reflexivity.
Qed.

(** X7.  On a document whose values are null, strings, booleans or
    integers of at most 4300 digits, a "Calculation error" warning has one
    of three sources.  It quotes a string of one of the six fields that is
    no integer literal, and then the warnings also hold the "Non-numeric
    value" warning that names this field and this string; or it reports
    the number of digits, above 4300, of the string of one of the six
    fields; or the six amounts were read and it is the message of the limit
    on digits for the calculated total, which has more than 4300 digits. *)
Theorem X7_calculation_error_sources (llm_data : pyval)
    (d : pydict) (v : verdict) (m : string) :
  template_data llm_data = Some d -> sized_values d = true ->
  Engine.validate_response llm_data = Ok v ->
  In ("Calculation error: " ++ m) (warnings v) ->
  (exists code s,
     In code display_codes /\ field_text d code = Some s
     /\ read_int s = InvalidLiteral /\ m = invalid_literal s
     /\ In ("Non-numeric value in field " ++ code ++ ": " ++ s) (warnings v))
  \/ (exists code s n,
        In code display_codes /\ field_text d code = Some s
        /\ read_int s = TooManyDigits n /\ (max_str_digits < n)%nat
        /\ m = too_many_digits_text n)
  \/ (m = exceeds_limit_text
      /\ exists a b c e x,
           amount d "010" = Ok a /\ amount d "020" = Ok b
           /\ amount d "030" = Ok c /\ amount d "040" = Ok e
           /\ amount d "070" = Ok x
           /\ fits_str_digits (a + b + c + e - x) = false).
Proof.
  intros Ht Hp H Hin.
  destruct (validate_response_ok_shape _ _ H) as [d' [Ht' Hd]].
  rewrite Ht in Ht'. inversion Ht'; subst d'. clear Ht'.
  rewrite (validate_response_outcome _ _ Ht Hd) in H.
  destruct (outcome_ok _ _ H) as [found [extra [_ [Hw [_ Hcase]]]]].
  rewrite Hw in Hin. rewrite Hw.
  assert (Hm : arithmetic d = Raise (ValueError m)).
  { apply in_app_or in Hin. destruct Hin as [Hin|Hin].
    { unfold empty_warnings in Hin. apply in_map_iff in Hin.
      destruct Hin as [c [Hc _]]. discriminate Hc. }
    apply in_app_or in Hin. destruct Hin as [Hin|Hin].
    { unfold type_warnings in Hin. apply in_flat_map in Hin.
      destruct Hin as [item [_ Hi]]. unfold type_warning in Hi.
      destruct (py_truthy _ && negb _); cbn [In] in Hi;
        [destruct Hi as [Hi|[]]; discriminate Hi|contradiction]. }
    destruct Hcase as [[a [r [_ [_ ->]]]]|[m0 [Ha [_ ->]]]];
      [destruct Hin|].
    destruct Hin as [Hi|[]]. unfold calculation_warning in Hi.
    cbn [append] in Hi. injection Hi as Hi. subst m0. exact Ha. }
  destruct (arithmetic_raises_sources _ _ Hd (sized_values_plain _ Hp) Hm)
    as [[code [s [Hc [Hf [Hn [Ha ->]]]]]]
       |[a [b [c [e [x [r [Ha [Hb [Hc [He [Hx [Hr Hfmt]]]]]]]]]]]]].
  - unfold py_int_of_str in Hn. unfold int_error_text in *.
    destruct (read_int s) as [z|n|] eqn:Hread; [discriminate Hn| |].
    + right. left. exists code, s, n. repeat split; auto.
      exact (read_int_too_many _ _ Hread).
    + left. exists code, s. repeat split; auto.
      apply in_or_app. right. apply in_or_app. left.
      apply (type_warning_of_unparsable _ _ _ Hf); [|exact Hread].
      unfold int_error_text. rewrite Hread. exact Ha.
  - right. right. split.
    + pose proof (formatted_errors_raises _ _ _ Hfmt) as He'.
      inversion He'. reflexivity.
    + exists a, b, c, e, x. repeat split; auto.
      exact (formatted_errors_oversized _ _ _ Hfmt
               (amount_sized_fits _ _ _ Hd Hp Hr)).
Qed.

Lemma X7_witness :
  (exists code s,
     In code display_codes /\ field_text unparsable_data code = Some s
     /\ read_int s = InvalidLiteral
     /\ "invalid literal for int() with base 10: 'abc'" = invalid_literal s
     /\ In ("Non-numeric value in field " ++ code ++ ": " ++ s)
           ["Non-numeric value in field 010: abc";
            "Calculation error: invalid literal for int() with base 10: 'abc'"])
  \/ (exists code s n,
        In code display_codes /\ field_text unparsable_data code = Some s
        /\ read_int s = TooManyDigits n /\ (max_str_digits < n)%nat
        /\ "invalid literal for int() with base 10: 'abc'"
           = too_many_digits_text n)
  \/ ("invalid literal for int() with base 10: 'abc'" = exceeds_limit_text
      /\ exists a b c e x,
           amount unparsable_data "010" = Ok a
           /\ amount unparsable_data "020" = Ok b
           /\ amount unparsable_data "030" = Ok c
           /\ amount unparsable_data "040" = Ok e
           /\ amount unparsable_data "070" = Ok x
           /\ fits_str_digits (a + b + c + e - x) = false).
Proof.
  apply (X7_calculation_error_sources
           (template unparsable_data) unparsable_data
           {| errors := [];
              warnings :=
                ["Non-numeric value in field 010: abc";
                 "Calculation error: invalid literal for int() with base 10: 'abc'"];
              is_valid := true |}
           "invalid literal for int() with base 10: 'abc'");
    try reflexivity.
  cbn. auto.
Defined.

(** ** The search for the JSON object *)

Lemma ascii_eqb_sym (a b : ascii) : Ascii.eqb a b = Ascii.eqb b a.
Proof.
  destruct (Ascii.eqb a b) eqn:H.
  - apply Ascii.eqb_eq in H. subst. symmetry. apply Ascii.eqb_refl.
  - destruct (Ascii.eqb b a) eqn:H'; [|reflexivity].
    apply Ascii.eqb_eq in H'. subst. rewrite Ascii.eqb_refl in H.
    discriminate H.
Qed.

Lemma list_ascii_app (a b : string) :
  list_ascii_of_string (a ++ b)
  = (list_ascii_of_string a ++ list_ascii_of_string b)%list.
Proof.
  induction a as [|c a IH]; [reflexivity|].
  cbn [append list_ascii_of_string app]. rewrite IH. reflexivity.
Qed.

Lemma string_of_list_app (a b : list ascii) :
  string_of_list_ascii (a ++ b)%list
  = string_of_list_ascii a ++ string_of_list_ascii b.
Proof.
  induction a as [|c a IH]; [reflexivity|].
  cbn [app string_of_list_ascii append]. rewrite IH. reflexivity.
Qed.

Lemma from_first_found (c : ascii) (pre r : list ascii) :
  has_char c pre = false ->
  from_first c (pre ++ c :: r)%list = Some (c :: r).
Proof.
  induction pre as [|x pre IH]; cbn [app from_first has_char existsb].
  - intros _. rewrite Ascii.eqb_refl. reflexivity.
  - intros H. apply orb_false_elim in H. destruct H as [Hx H].
    rewrite ascii_eqb_sym, Hx. exact (IH H).
Qed.

Lemma from_first_inv (c : ascii) (l t : list ascii) :
  from_first c l = Some t ->
  exists pre r, l = (pre ++ c :: r)%list /\ t = c :: r
                /\ has_char c pre = false.
Proof.
  induction l as [|x l IH]; cbn [from_first]; [discriminate|].
  destruct (Ascii.eqb x c) eqn:Hx.
  - apply Ascii.eqb_eq in Hx. subst x. intros H. inversion H; subst.
    exists [], l. auto.
  - intros H. destruct (IH H) as [pre [r [-> [-> Hp]]]].
    exists (x :: pre), r. cbn [app has_char existsb].
    rewrite ascii_eqb_sym, Hx. auto.
Qed.

Lemma upto_last_none (c : ascii) (l : list ascii) :
  upto_last c l = None <-> has_char c l = false.
Proof.
  induction l as [|x l IH]; cbn [upto_last has_char existsb].
  - split; reflexivity.
  - rewrite (ascii_eqb_sym c x). destruct (upto_last c l) as [p|].
    + split; [discriminate|]. intros H. apply orb_false_elim in H.
      destruct H as [_ H]. apply IH in H. discriminate H.
    + destruct (Ascii.eqb x c); cbn [orb].
      * split; discriminate.
      * split; intros _; [apply IH|]; reflexivity.
Qed.

Lemma upto_last_found (c : ascii) (q post : list ascii) :
  has_char c post = false ->
  upto_last c (q ++ c :: post)%list = Some (q ++ [c])%list.
Proof.
  intros H. induction q as [|x q IH]; cbn [app upto_last].
  - rewrite (proj2 (upto_last_none c post) H), Ascii.eqb_refl. reflexivity.
  - rewrite IH. reflexivity.
Qed.

Lemma upto_last_inv (c : ascii) (l p : list ascii) :
  upto_last c l = Some p ->
  exists q post, l = (q ++ c :: post)%list /\ p = (q ++ [c])%list
                 /\ has_char c post = false.
Proof.
  revert p. induction l as [|x l IH]; intros p; cbn [upto_last];
    [discriminate|].
  destruct (upto_last c l) as [p'|] eqn:Hl.
  - intros H. inversion H; subst p.
    destruct (IH p' eq_refl) as [q [post [-> [-> Hp]]]].
    exists (x :: q), post. auto.
  - destruct (Ascii.eqb x c) eqn:Hx; [|discriminate].
    apply Ascii.eqb_eq in Hx. subst x. intros H. inversion H; subst p.
    exists [], l. repeat split. apply upto_last_none. exact Hl.
Qed.

(** Leading text without an opening brace and trailing text without a
    closing brace are cut off. *)
Lemma re_search_braces_found (pre body post : string) :
  has_char "{"%char (list_ascii_of_string pre) = false ->
  has_char "}"%char (list_ascii_of_string post) = false ->
  re_search_braces (pre ++ "{" ++ body ++ "}" ++ post)
  = Some ("{" ++ body ++ "}").
Proof.
  intros Hpre Hpost. unfold re_search_braces.
  rewrite list_ascii_app. cbn [append list_ascii_of_string].
  rewrite (from_first_found _ _ _ Hpre). rewrite list_ascii_app.
  cbn [list_ascii_of_string option_map].
  change ("{"%char :: list_ascii_of_string body
            ++ "}"%char :: list_ascii_of_string post)%list
    with (("{"%char :: list_ascii_of_string body)
            ++ "}"%char :: list_ascii_of_string post)%list.
  rewrite (upto_last_found _ _ _ Hpost). cbn [option_map app].
  cbn [string_of_list_ascii]. rewrite string_of_list_app.
  rewrite string_of_list_ascii_of_string. reflexivity.
Qed.

(** X8.  The search for the JSON object finds the text from the first
    opening brace to the last closing brace, newlines included, when a
    closing brace follows the first opening brace, and nothing otherwise. *)
Theorem X8_first_brace_to_last_brace (s m : string) :
  re_search_braces s = Some m
  <-> exists pre body post,
        s = pre ++ "{" ++ body ++ "}" ++ post
        /\ m = "{" ++ body ++ "}"
        /\ has_char "{"%char (list_ascii_of_string pre) = false
        /\ has_char "}"%char (list_ascii_of_string post) = false.
Proof.
  split.
  - unfold re_search_braces.
    destruct (from_first "{"%char (list_ascii_of_string s)) as [t|] eqn:Ht;
      [|discriminate].
    destruct (from_first_inv _ _ _ Ht) as [pre [r [Hs [-> Hpre]]]].
    destruct (upto_last "}"%char ("{"%char :: r)) as [p|] eqn:Hp;
      [|discriminate].
    destruct (upto_last_inv _ _ _ Hp) as [q [post [Hq [-> Hpost]]]].
    cbn [option_map]. intros H. inversion H; subst m; clear H.
    destruct q as [|x body]; inversion Hq; subst.
    exists (string_of_list_ascii pre), (string_of_list_ascii body),
      (string_of_list_ascii post).
    rewrite !list_ascii_of_string_of_list_ascii. repeat split; auto.
    + rewrite <- (string_of_list_ascii_of_string s), Hs.
      rewrite string_of_list_app. cbn [string_of_list_ascii append].
      rewrite string_of_list_app. reflexivity.
    + cbn [app string_of_list_ascii append].
      rewrite string_of_list_app. reflexivity.
  - intros [pre [body [post [-> [-> [Hpre Hpost]]]]]].
    apply re_search_braces_found; assumption.
Qed.

(** X9.  Whatever the decoder is, [parse_llm_response] decodes only the
    object: text before it that has no opening brace, and text after it
    that has no closing brace (a Markdown fence, a sentence), do not change
    the result. *)
Theorem X9_text_around_the_object_is_ignored
    (json_loads : string -> option pyval) (pre body post : string) :
  has_char "{"%char (list_ascii_of_string pre) = false ->
  has_char "}"%char (list_ascii_of_string post) = false ->
  parse_llm_response json_loads (pre ++ "{" ++ body ++ "}" ++ post)
  = parse_llm_response json_loads ("{" ++ body ++ "}").
Proof.
  intros Hpre Hpost. unfold parse_llm_response.
  rewrite (re_search_braces_found pre body post Hpre Hpost).
  pose proof (re_search_braces_found "" body "" eq_refl eq_refl) as H.
  cbn [append] in H. cbn [append]. rewrite H. reflexivity.
Qed.

Lemma X9_witness :
  parse_llm_response
    (fun s => if s =? "{}" then Some (PDict []) else None)
    ("Here is the report: " ++ "{" ++ "" ++ "}" ++ " (end)")
  = parse_llm_response
      (fun s => if s =? "{}" then Some (PDict []) else None)
      ("{" ++ "" ++ "}").
Proof.
  apply (X9_text_around_the_object_is_ignored
           (fun s => if s =? "{}" then Some (PDict []) else None)
           "Here is the report: " "" " (end)"); reflexivity.
Defined.

(** ** [process_query] and its caller *)

Lemma process_query_results (json_loads : string -> option pyval)
    (generate_prompt : string -> string) (call_llm : string -> option string)
    (now_isoformat user_input : string) (result : pyval) :
  process_query json_loads generate_prompt call_llm now_isoformat user_input
  = Ok result ->
  result = PDict [("error", PStr "LLM call failed")]
  \/ result = PDict [("error", PStr "Failed to parse response")]
  \/ exists top v,
       top <> []
       /\ well_shaped (PDict top) = true
       /\ Engine.validate_response (PDict top) = Ok v
       /\ result = PDict [("success", PBool true);
                          ("template_data", PDict top);
                          ("validation", verdict_dict v);
                          ("timestamp", PStr now_isoformat);
                          ("user_query", PStr user_input)].
Proof.
  unfold process_query.
  destruct (call_llm (generate_prompt user_input)) as [llm_response|];
    [|intros H; inversion H; auto].
  destruct (negb (py_truthy (PStr llm_response)));
    [intros H; inversion H; auto|].
  destruct (negb (py_truthy (parse_llm_response json_loads llm_response)))
    eqn:Htruthy; [intros H; inversion H; auto|].
  destruct (Engine.validate_response
              (parse_llm_response json_loads llm_response)) as [v|e] eqn:Hv;
    cbn [bind]; [|discriminate].
  intros H. inversion H; subst result; clear H. right. right.
  destruct (validate_response_ok_shape _ _ Hv) as [d [Ht Hd]].
  destruct (parse_llm_response json_loads llm_response)
    as [| | | | | |top]; try discriminate Ht.
  exists top, v. repeat split; auto.
  - intros ->. discriminate Htruthy.
  - unfold well_shaped. rewrite Ht. exact Hd.
Qed.

(** X10.  A result of [process_query] is one of three things: the error
    "LLM call failed" (no response, or an empty one), the error "Failed to
    parse response" (the text did not decode, or decoded to something
    falsy such as an empty object), or a success record.  A success record
    carries a non-empty mapping whose data is a mapping of mappings,
    together with the verdict of [validate_response] on that mapping, the
    clock reading and the query. *)
Theorem X10_process_query_results (json_loads : string -> option pyval)
    (generate_prompt : string -> string) (call_llm : string -> option string)
    (now_isoformat user_input : string) (result : pyval) :
  process_query json_loads generate_prompt call_llm now_isoformat user_input
  = Ok result ->
  result = PDict [("error", PStr "LLM call failed")]
  \/ result = PDict [("error", PStr "Failed to parse response")]
  \/ exists top v,
       top <> []
       /\ well_shaped (PDict top) = true
       /\ Engine.validate_response (PDict top) = Ok v
       /\ result = PDict [("success", PBool true);
                          ("template_data", PDict top);
                          ("validation", verdict_dict v);
                          ("timestamp", PStr now_isoformat);
                          ("user_query", PStr user_input)].
Proof.
  apply process_query_results.
Qed.

Lemma X10_witness :
  PDict [("error", PStr "Failed to parse response")]
  = PDict [("error", PStr "LLM call failed")]
  \/ PDict [("error", PStr "Failed to parse response")]
     = PDict [("error", PStr "Failed to parse response")]
  \/ exists top v,
       top <> []
       /\ well_shaped (PDict top) = true
       /\ Engine.validate_response (PDict top) = Ok v
       /\ PDict [("error", PStr "Failed to parse response")]
          = PDict [("success", PBool true);
                   ("template_data", PDict top);
                   ("validation", verdict_dict v);
                   ("timestamp", PStr "2024-12-31T12:00:00");
                   ("user_query", PStr "q")].
Proof.
  exact (X10_process_query_results toy_loads (fun q => q)
           (fun _ => Some "Result: {} .") "2024-12-31T12:00:00" "q"
           (PDict [("error", PStr "Failed to parse response")]) eq_refl).
Defined.

(** X12.  What [process_report] reads of a result of [process_query] is
    always there.  Either the result is one of the two error records, and
    nothing more is read; or its ["validation"]["is_valid"] is the flag of
    the verdict that [validate_response] returns for its
    ["template_data"], true exactly when that verdict has no errors.  No
    [KeyError] is possible. *)
Theorem X12_report_status_is_defined (json_loads : string -> option pyval)
    (generate_prompt : string -> string) (call_llm : string -> option string)
    (now_isoformat user_input : string) (result : pyval) :
  process_query json_loads generate_prompt call_llm now_isoformat user_input
  = Ok result ->
  (report_status result = Ok None
   /\ (result = PDict [("error", PStr "LLM call failed")]
       \/ result = PDict [("error", PStr "Failed to parse response")]))
  \/ exists llm_data v,
       py_getitem result "template_data" = Ok llm_data
       /\ Engine.validate_response llm_data = Ok v
       /\ py_getitem result "validation" = Ok (verdict_dict v)
       /\ report_status result = Ok (Some (PBool (is_valid v)))
       /\ (is_valid v = true <-> errors v = []).
Proof.
  intros H. apply process_query_results in H.
  destruct H as [->|[->|[top [v [_ [_ [Hv ->]]]]]]];
    [left; split; [reflexivity|auto]..|].
  right. exists (PDict top), v.
  split; [reflexivity|]. split; [exact Hv|]. split; [reflexivity|].
  split; [reflexivity|].
  rewrite (validate_response_is_valid _ _ Hv).
  destruct (errors v); cbn; split; intros; congruence.
Qed.

Lemma X12_witness :
  (report_status
     (PDict [("success", PBool true);
             ("template_data", template negative_data);
             ("validation", verdict_dict negative_verdict);
             ("timestamp", PStr "2024-12-31T12:00:00");
             ("user_query", PStr "q")]) = Ok None
   /\ (PDict [("success", PBool true);
              ("template_data", template negative_data);
              ("validation", verdict_dict negative_verdict);
              ("timestamp", PStr "2024-12-31T12:00:00");
              ("user_query", PStr "q")]
       = PDict [("error", PStr "LLM call failed")]
       \/ PDict [("success", PBool true);
                 ("template_data", template negative_data);
                 ("validation", verdict_dict negative_verdict);
                 ("timestamp", PStr "2024-12-31T12:00:00");
                 ("user_query", PStr "q")]
          = PDict [("error", PStr "Failed to parse response")]))
  \/ exists llm_data v,
       py_getitem
         (PDict [("success", PBool true);
                 ("template_data", template negative_data);
                 ("validation", verdict_dict negative_verdict);
                 ("timestamp", PStr "2024-12-31T12:00:00");
                 ("user_query", PStr "q")]) "template_data" = Ok llm_data
       /\ Engine.validate_response llm_data = Ok v
       /\ py_getitem
            (PDict [("success", PBool true);
                    ("template_data", template negative_data);
                    ("validation", verdict_dict negative_verdict);
                    ("timestamp", PStr "2024-12-31T12:00:00");
                    ("user_query", PStr "q")]) "validation"
          = Ok (verdict_dict v)
       /\ report_status
            (PDict [("success", PBool true);
                    ("template_data", template negative_data);
                    ("validation", verdict_dict negative_verdict);
                    ("timestamp", PStr "2024-12-31T12:00:00");
                    ("user_query", PStr "q")])
          = Ok (Some (PBool (is_valid v)))
       /\ (is_valid v = true <-> errors v = []).
Proof.
  exact (X12_report_status_is_defined toy_loads (fun q => q)
           (fun _ => Some "{1}") "2024-12-31T12:00:00" "q" _ eq_refl).
Defined.

(** ** The two displays of the template *)

Lemma add_row_eq (d : pydict) (code : string) (rows : list pyval) :
  fields_are_dicts d = true ->
  add_row (PDict d) code rows = Ok (rows ++ rows_of d [code])%list.
Proof.
  intros Hd. unfold add_row, rows_of. cbn [py_contains py_getitem bind flat_map].
  destruct (lookup code d) as [f|] eqn:Hl; cbn [bind].
  - destruct (lookup_is_dict _ _ _ Hd Hl) as [fd ->].
    unfold row_of, description_of, flagged_deduction, push.
    cbn [py_get bind value_or app]. reflexivity.
  - rewrite app_nil_r. reflexivity.
Qed.

Lemma add_rows_eq (d : pydict) (codes : list string) (rows : list pyval) :
  fields_are_dicts d = true ->
  for_each codes (add_row (PDict d)) rows = Ok (rows ++ rows_of d codes)%list.
Proof.
  intros Hd. revert rows.
  induction codes as [|code codes IH]; intros rows; cbn [for_each].
  - unfold rows_of. cbn [flat_map]. rewrite app_nil_r. reflexivity.
  - rewrite (add_row_eq _ _ _ Hd). cbn [bind]. rewrite IH.
    unfold rows_of. cbn [flat_map]. rewrite app_nil_r, <- app_assoc.
    reflexivity.
Qed.


Lemma template_rows_exist (llm_data : pyval) (d : pydict) :
  template_data llm_data = Some d -> fields_are_dicts d = true ->
  exists rows, template_rows llm_data = Ok rows.
Proof.
  intros Ht Hd. unfold template_rows.
  rewrite (template_data_get _ _ Ht). cbn [bind].
  rewrite (add_rows_eq _ _ _ Hd). eauto.
Qed.



(** X14.  Validation never looks at "calculations", and the display does:
    on a mapping whose data is a mapping of mappings, [display_template]
    raises [AttributeError] when "calculations" is there and is not a
    mapping, shows its values in order when it is a mapping, and shows
    none when it is absent. *)
Theorem X14_calculations_must_be_a_mapping (top d : pydict) :
  template_data (PDict top) = Some d -> fields_are_dicts d = true ->
  match lookup "calculations" top with
  | None => exists rows, display_template (PDict top) = Ok (rows, [])
  | Some (PDict c) =>
      exists rows, display_template (PDict top) = Ok (rows, map snd c)
  | Some _ => display_template (PDict top) = Raise AttributeError
  end.
Proof.
  intros Ht Hd. unfold display_template.
  destruct (template_rows_exist (PDict top) d Ht Hd) as [rows ->].
  unfold shown_calculations. cbn [bind py_contains py_getitem].
  destruct (lookup "calculations" top) as [[| | | | | |c]|]; cbn [bind py_items];
    eauto.
Qed.

Lemma X14_witness :
  Engine.validate_response decorated_template
  = Ok {| errors := [];
          warnings := ["Non-numeric value in field 090: n/a"];
          is_valid := true |}
  /\ display_template decorated_template = Raise AttributeError.
Proof.
  split; [reflexivity|].
  exact (X14_calculations_must_be_a_mapping _ _ (eq_refl : template_data decorated_template = Some _) eq_refl).
Defined.

Lemma str_length_app (a b : string) :
  String.length (a ++ b) = (String.length a + String.length b)%nat.
Proof.
  induction a as [|c a IH]; [reflexivity|].
  cbn [append String.length]. rewrite IH. reflexivity.
Qed.









(** ** The saved report and the history *)

Lemma positive_length (n : nat) : (0 <? Z.of_nat n)%Z = negb (n =? 0)%nat.
Proof.
  destruct n; reflexivity.
Qed.

(** X16.  For a document and the verdict [validate_response] returned for
    it, the report that [save_report] builds is defined, no subscription
    or [len()] fails, and its summary agrees with the verdict:
    [has_errors] is the negation of [is_valid], [has_warnings] says whether
    there is a warning, and [fields_populated] is the number of entries of
    the data mapping.  The file is named after the clock reading, and the
    report holds the document and the verdict unchanged. *)
Theorem X16_report_summary (stamp generated_at : string)
    (llm_data : pyval) (v : verdict) :
  Engine.validate_response llm_data = Ok v ->
  exists d template_id,
    template_data llm_data = Some d
    /\ py_get llm_data "template" (PStr "C 01.00") = Ok template_id
    /\ save_report_record stamp generated_at llm_data (verdict_dict v)
       = Ok ("corep_report_" ++ stamp ++ ".json",
             PDict [("metadata",
                     PDict [("generated_at", PStr generated_at);
                            ("template", template_id);
                            ("assistant_version", PStr "1.0")]);
                    ("report_data", llm_data);
                    ("validation_results", verdict_dict v);
                    ("summary",
                     PDict [("fields_populated",
                             PInt (Z.of_nat (List.length d)));
                            ("has_errors", PBool (negb (is_valid v)));
                            ("has_warnings",
                             PBool (negb (List.length (warnings v) =? 0)%nat))])]).
Proof.
  intros H. destruct (validate_response_ok_shape _ _ H) as [d [Ht Hd]].
  pose proof (validate_response_is_valid _ _ H) as Hv.
  exists d. unfold save_report_record. rewrite (template_data_get _ _ Ht).
  destruct llm_data as [| | | | | |top]; try discriminate Ht.
  eexists. split; [exact Ht|]. split; [reflexivity|].
  cbn [py_get bind py_len]. unfold verdict_dict.
  cbn [py_getitem lookup String.eqb Ascii.eqb Bool.eqb bind py_len].
  rewrite !length_map, !positive_length, Hv. reflexivity.
Qed.

Lemma X16_witness :
  exists d template_id,
    template_data (template negative_data) = Some d
    /\ py_get (template negative_data) "template" (PStr "C 01.00")
       = Ok template_id
    /\ save_report_record "20241231_120000" "2024-12-31T12:00:00"
         (template negative_data) (verdict_dict negative_verdict)
       = Ok ("corep_report_" ++ "20241231_120000" ++ ".json",
             PDict [("metadata",
                     PDict [("generated_at", PStr "2024-12-31T12:00:00");
                            ("template", template_id);
                            ("assistant_version", PStr "1.0")]);
                    ("report_data", template negative_data);
                    ("validation_results", verdict_dict negative_verdict);
                    ("summary",
                     PDict [("fields_populated",
                             PInt (Z.of_nat (List.length d)));
                            ("has_errors",
                             PBool (negb (is_valid negative_verdict)));
                            ("has_warnings",
                             PBool (negb (List.length
                                            (warnings negative_verdict)
                                          =? 0)%nat))])]).
Proof.
  exact (X16_report_summary "20241231_120000" "2024-12-31T12:00:00"
           (template negative_data) negative_verdict eq_refl).
Defined.

Lemma length_substring (n : nat) (s : string) :
  (n <= String.length s)%nat -> String.length (substring 0 n s) = n.
Proof.
  revert s. induction n as [|n IH]; intros s H.
  - destruct s; reflexivity.
  - destruct s as [|c s]; cbn [String.length] in H; [lia|].
    cbn [substring String.length]. rewrite IH by lia. reflexivity.
Qed.

(** X17.  The query kept in the history never has more than 83
    characters: a query of at most 80 characters is kept as it is, and a
    longer one is cut to its first 80 characters and three dots, which
    makes 83 characters whatever its length was. *)
Theorem X17_history_query_is_bounded (user_input : string) :
  (String.length (history_query user_input) <= 83)%nat
  /\ String.length (history_query user_input)
     = (if (String.length user_input <=? 80)%nat
        then String.length user_input else 83%nat)
  /\ ((String.length user_input <=? 80)%nat = true ->
      history_query user_input = user_input).
Proof.
  unfold history_query.
  destruct (80 <? String.length user_input)%nat eqn:Hlen.
  - apply Nat.ltb_lt in Hlen.
    assert (Hle : (String.length user_input <=? 80)%nat = false)
      by (apply Nat.leb_gt; exact Hlen).
    rewrite Hle, str_length_app, length_substring by lia.
    change (String.length "...") with 3%nat.
    repeat split; try lia; try discriminate.
  - apply Nat.ltb_ge in Hlen.
    assert (Hle : (String.length user_input <=? 80)%nat = true)
      by (apply Nat.leb_le; exact Hlen).
    rewrite Hle. repeat split; lia.
Qed.

Lemma X8_witness :
  re_search_braces ("Answer: " ++ "{" ++ "a}b" ++ "}" ++ " done")
  = Some ("{" ++ "a}b" ++ "}").
Proof.
  apply (proj2 (X8_first_brace_to_last_brace
                  ("Answer: " ++ "{" ++ "a}b" ++ "}" ++ " done")
                  ("{" ++ "a}b" ++ "}"))).
  exists "Answer: ", "a}b", " done". repeat split.
Defined.

Lemma X17_witness :
  history_query "Bank has 100M shares and 50M earnings only."
  = "Bank has 100M shares and 50M earnings only.".
Proof.
  apply (proj2 (proj2 (X17_history_query_is_bounded
                         "Bank has 100M shares and 50M earnings only."))).
  reflexivity.
Defined.
